(** * Secret Calculator: the calculator screen and its expression engine

    A shallow embedding of [CalculatorScreen] (the second component of
    [src/client/screens/NotesScreen.tsx]) and of the history part of
    [src/client/lib/storage.ts].

    - JavaScript strings are sequences of UTF-16 code units.
    - JavaScript Numbers are IEEE 754 binary64 values, taken from the
      Standard Library's [SpecFloat] (round to nearest, ties to even).
    - [new Function("return " + s)()] is the ECMAScript semantics of the
      function body [return s], restricted to the characters that pass the
      whitelist test of [evaluateExpression]; the one part ECMA-262 leaves
      to the engine, the approximation of [**] on finite operands, is a
      parameter.
    - React state is an explicit record; one key press is one transition,
      and each press is handled before the next one arrives (the haptic
      feedback awaited first is taken to resolve).
    - AsyncStorage is a reliable cell: what [saveHistory] writes is what
      [loadHistory] reads. *)

From Stdlib Require Import String Ascii ZArith NArith List Bool Lia SpecFloat.
From Stdlib Require DecimalPos DecimalN.
Import ListNotations.

Local Open Scope Z_scope.

(* ================================================================== *)
(** ** JavaScript strings *)

(** A code unit of a JavaScript string. *)
Definition codeunit := N.
Bind Scope N_scope with codeunit.

Definition jsstring := list codeunit.

(** The JavaScript string whose code units are the bytes of an ASCII text. *)
Fixpoint js (s : string) : jsstring :=
  match s with
  | EmptyString => []
  | String c r => N_of_ascii c :: js r
  end.

Fixpoint jsstring_eqb (a b : jsstring) : bool :=
  match a, b with
  | [], [] => true
  | x :: a', y :: b' => N.eqb x y && jsstring_eqb a' b'
  | _, _ => false
  end.

(** [\d] *)
Definition isDigit (c : codeunit) : bool := (N.leb 48 c && N.leb c 57)%N.

(** [[+\-*/]] *)
Definition isOperator (c : codeunit) : bool :=
  N.eqb c 43 || N.eqb c 45 || N.eqb c 42 || N.eqb c 47.

(** ECMAScript LineTerminator: LF, CR, LS, PS. *)
Definition isLineTerminator (c : codeunit) : bool :=
  N.eqb c 10 || N.eqb c 13 || N.eqb c 8232 || N.eqb c 8233.

(** ECMAScript WhiteSpace: TAB, VT, FF, SP, NBSP, ZWNBSP and the other
    space separators (Zs). *)
Definition isWhiteSpace (c : codeunit) : bool :=
  N.eqb c 9 || N.eqb c 11 || N.eqb c 12 || N.eqb c 32 || N.eqb c 160
  || N.eqb c 5760 || (N.leb 8192 c && N.leb c 8202)%N
  || N.eqb c 8239 || N.eqb c 8287 || N.eqb c 12288 || N.eqb c 65279.

(** [\s] *)
Definition isSpace (c : codeunit) : bool := isWhiteSpace c || isLineTerminator c.

(* ================================================================== *)
(** ** JavaScript Numbers *)

Definition Number := spec_float.

Definition prec : Z := 53.
Definition emax : Z := 1024.

Definition NaN : Number := S754_nan.
Definition posZero : Number := S754_zero false.
Definition negZero : Number := S754_zero true.
Definition posInf : Number := S754_infinity false.
Definition negInf : Number := S754_infinity true.

Definition num_add : Number -> Number -> Number := SFadd prec emax.
Definition num_sub : Number -> Number -> Number := SFsub prec emax.
Definition num_mul : Number -> Number -> Number := SFmul prec emax.
Definition num_div : Number -> Number -> Number := SFdiv prec emax.
Definition num_neg : Number -> Number := SFopp.

(** The Number value for an integer. *)
Definition num_ofZ (z : Z) : Number := binary_normalize prec emax z 0 false.

(** The Number value for the rational [n / d]: the quotient is rounded
    once, from its exact value. *)
Definition num_ofRat (n d : positive) : Number :=
  SFdiv prec emax (S754_finite false n 0) (S754_finite false d 0).

(** The Number value for [s * 10 ^ q] with [0 <= s]. *)
Definition num_ofDecimal (s : Z) (q : Z) : Number :=
  match s with
  | Zpos p =>
      match q with
      | Z0 => num_ofZ s
      | Zpos _ => num_ofZ (s * 10 ^ q)
      | Zneg _ => num_ofRat p (Z.to_pos (10 ^ (- q)))
      end
  | _ => posZero
  end.

Definition notNaN (x : Number) : bool :=
  match x with
  | S754_nan => false
  | _ => true
  end.

(** [isFinite] on a Number. *)
Definition num_isFinite (x : Number) : bool :=
  match x with
  | S754_zero _ | S754_finite _ _ _ => true
  | S754_infinity _ | S754_nan => false
  end.

(** [Math.round]: the closest integer, ties towards +Infinity; the sign
    of a zero result is the sign of the argument. *)
Definition Math_round (x : Number) : Number :=
  match x with
  | S754_finite s m e =>
      match e with
      | Zneg p =>
          let d := Z.pow_pos 2 p in
          let v := if s then Z.opp (Zpos m) else Zpos m in
          let n := (2 * v + d) / (2 * d) in
          if Z.eqb n 0 then S754_zero s else num_ofZ n
      | _ => x
      end
  | _ => x
  end.

(** *** Number::toString (radix 10)

    ECMA-262 6.1.6.1.20: for a finite non-zero [x] take integers [n], [k],
    [s] with [10^(k-1) <= s < 10^k], the Number value for [s * 10^(n-k)]
    equal to [x], and [k] as small as possible; of several [s] the one
    closest to [x], and of two equally close the even one. *)

Fixpoint uint_digits (u : Decimal.uint) : jsstring :=
  match u with
  | Decimal.Nil => []
  | Decimal.D0 r => 48%N :: uint_digits r
  | Decimal.D1 r => 49%N :: uint_digits r
  | Decimal.D2 r => 50%N :: uint_digits r
  | Decimal.D3 r => 51%N :: uint_digits r
  | Decimal.D4 r => 52%N :: uint_digits r
  | Decimal.D5 r => 53%N :: uint_digits r
  | Decimal.D6 r => 54%N :: uint_digits r
  | Decimal.D7 r => 55%N :: uint_digits r
  | Decimal.D8 r => 56%N :: uint_digits r
  | Decimal.D9 r => 57%N :: uint_digits r
  end.

(** The decimal digits of a non-negative integer, most significant first. *)
Definition decimalDigits (z : Z) : jsstring := uint_digits (N.to_uint (Z.to_N z)).

(** The fraction [num / den] multiplied by [10 ^ q]. *)
Definition scale10 (num den : Z) (q : Z) : Z * Z :=
  match q with
  | Zneg p => (num, den * Z.pow_pos 10 p)
  | _ => (num * 10 ^ q, den)
  end.

(** The exact value of a positive finite Number as a fraction. *)
Definition fractionOf (m : positive) (e : Z) : Z * Z :=
  match e with
  | Zneg p => (Zpos m, Z.pow_pos 2 p)
  | _ => (Zpos m * 2 ^ e, 1)
  end.

(** The integer [N] with [10^(N-1) <= num/den < 10^N]. *)
Definition decimalExponent (num den : Z) : Z :=
  let '(a, b) := scale10 num den 400 in
  Z.of_nat (length (decimalDigits (a / b))) - 400.

Definition roundTrips (m : positive) (e : Z) (s q : Z) : bool :=
  match num_ofDecimal s q with
  | S754_finite false m' e' => Pos.eqb m m' && Z.eqb e e'
  | _ => false
  end.

(** The [k]-digit candidate for [x = m * 2^e], if one round-trips. *)
Definition candidate (m : positive) (e : Z) (bigN k : Z) : option Z :=
  let '(num, den) := fractionOf m e in
  let q := bigN - k in
  let '(a, b) := scale10 num den (- q) in
  let lo := a / b in
  let r := a mod b in
  let hi := lo + 1 in
  let lo_ok := roundTrips m e lo q in
  let hi_ok := roundTrips m e hi q in
  match lo_ok, hi_ok with
  | true, true =>
      match (2 * r ?= b) with
      | Lt => Some lo
      | Gt => Some hi
      | Eq => if Z.even lo then Some lo else Some hi
      end
  | true, false => Some lo
  | false, true => Some hi
  | false, false => None
  end.

(** The shortest candidate, trying [k], [k + 1], ...; seventeen digits
    always round-trip, so the search ends before the fuel does. *)
Fixpoint shortest (fuel : nat) (m : positive) (e : Z) (bigN k : Z) : Z * Z :=
  match fuel with
  | O => (Z.succ (Z.abs (fst (scale10 (fst (fractionOf m e)) (snd (fractionOf m e)) (k - bigN))
                         / snd (scale10 (fst (fractionOf m e)) (snd (fractionOf m e)) (k - bigN)))), k)
  | S f =>
      match candidate m e bigN k with
      | Some s => (s, k)
      | None => shortest f m e bigN (k + 1)
      end
  end.

Fixpoint dropZeros (l : jsstring) : jsstring :=
  match l with
  | c :: r => if N.eqb c 48 then dropZeros r else l
  | [] => []
  end.

(** The digits of [s] and the exponent [n] of [x = m * 2^e]. *)
Definition shortestDigits (m : positive) (e : Z) : jsstring * Z :=
  let '(num, den) := fractionOf m e in
  let bigN := decimalExponent num den in
  let '(s, k) := shortest 17 m e bigN 1 in
  let ds := decimalDigits s in
  (rev (dropZeros (rev ds)), bigN - k + Z.of_nat (length ds)).

Definition zeros (n : Z) : jsstring := repeat 48%N (Z.to_nat n).

Definition formatDecimal (ds : jsstring) (n : Z) : jsstring :=
  let k := Z.of_nat (length ds) in
  if (k <=? n) && (n <=? 21) then ds ++ zeros (n - k)
  else if (0 <? n) && (n <=? 21) then
    firstn (Z.to_nat n) ds ++ js "." ++ skipn (Z.to_nat n) ds
  else if (-6 <? n) && (n <=? 0) then js "0." ++ zeros (- n) ++ ds
  else
    let e := n - 1 in
    let sign := if e <? 0 then js "-" else js "+" in
    match ds with
    | [] => []
    | [d] => d :: js "e" ++ sign ++ decimalDigits (Z.abs e)
    | d :: rest => d :: js "." ++ rest ++ js "e" ++ sign ++ decimalDigits (Z.abs e)
    end.

(** [String(x)] for a Number [x]. *)
Definition numberToString (x : Number) : jsstring :=
  match x with
  | S754_nan => js "NaN"
  | S754_zero _ => js "0"
  | S754_infinity s => (if s then js "-" else []) ++ js "Infinity"
  | S754_finite s m e =>
      (if s then js "-" else []) ++
      let '(ds, n) := shortestDigits m e in formatDecimal ds n
  end.

(* ================================================================== *)
(** ** The function body [return s]: tokens

    Only the characters of the whitelist [[\d+\-*/.\s()]] reach the
    Function constructor, so the tokens of the body are numeric literals
    (decimal, legacy octal), regular expression literals, comments and the
    punctuators [( ) + - * / ** ++ -- . ...].  A [.] that is not part of a
    numeric literal has no valid continuation (no identifier can follow),
    so the lexer rejects it with the other lexical errors. *)

Inductive binop := Add | Sub | Mul | Div | Pow.

Inductive token :=
  | TNum (v : Number)
  | TRegex
  | TOp (o : binop)
  | TIncDec
  | TLParen
  | TRParen
  | TEllipsis.

(** A token with the flag "a LineTerminator precedes it". *)
Definition ltoken := (bool * token)%type.

Definition digitsValue (base : Z) (ds : jsstring) : Z :=
  fold_left (fun acc c => acc * base + (Z.of_N c - 48)) ds 0.

Definition isOctalDigit (c : codeunit) : bool := (N.leb 48 c && N.leb c 55)%N.

(** LegacyOctalIntegerLiteral: [0] followed by octal digits only. *)
Definition isLegacyOctal (ds : jsstring) : bool :=
  match ds with
  | c :: (_ :: _) as r => N.eqb c 48 && forallb isOctalDigit r
  | _ => false
  end.

Definition integerLiteral (ds : jsstring) : Number :=
  if isLegacyOctal ds then num_ofZ (digitsValue 8 ds)
  else num_ofDecimal (digitsValue 10 ds) 0.

Definition decimalLiteral (ip fp : jsstring) : Number :=
  num_ofDecimal (digitsValue 10 (ip ++ fp)) (- Z.of_nat (List.length fp)).

Inductive lexstate :=
  | LStart
  | LInt (ds : jsstring)
  | LFrac (ip fp : jsstring)
  | LDot
  | LDot2
  | LPlus
  | LMinus
  | LStar
  | LSlash
  | LLineComment
  | LBlockComment (star : bool)
  | LRegex (depth : nat) (quantifiable : bool)
  | LRegexEnd.

(** [lx_operand]: the last token ends an operand, so [/] is a division;
    [lx_nl]: a LineTerminator was seen since the last token. *)
Record lexer := mkLexer { lx_state : lexstate; lx_operand : bool; lx_nl : bool }.

Definition startChar (operand nl : bool) (c : codeunit) : option (list ltoken * lexer) :=
  if isLineTerminator c then Some ([], mkLexer LStart operand true)
  else if isWhiteSpace c then Some ([], mkLexer LStart operand nl)
  else if isDigit c then Some ([], mkLexer (LInt [c]) operand nl)
  else if N.eqb c 46 then Some ([], mkLexer LDot operand nl)
  else if N.eqb c 43 then Some ([], mkLexer LPlus operand nl)
  else if N.eqb c 45 then Some ([], mkLexer LMinus operand nl)
  else if N.eqb c 42 then Some ([], mkLexer LStar operand nl)
  else if N.eqb c 47 then Some ([], mkLexer LSlash operand nl)
  else if N.eqb c 40 then Some ([(nl, TLParen)], mkLexer LStart false false)
  else if N.eqb c 41 then Some ([(nl, TRParen)], mkLexer LStart true false)
  else None.

(** The token [t] ends just before [c]. *)
Definition emitThen (nl : bool) (t : token) (operand : bool) (c : codeunit)
  : option (list ltoken * lexer) :=
  match startChar operand false c with
  | Some (ts, l) => Some ((nl, t) :: ts, l)
  | None => None
  end.

(** One character inside the body of a regular expression literal: the
    pattern must be valid ([+] and [*] need an atom before them, the
    parentheses balance) and holds no LineTerminator. *)
Definition regexChar (depth : nat) (quantifiable : bool) (c : codeunit) : option lexstate :=
  if isLineTerminator c then None
  else if N.eqb c 47 then
    match depth with O => Some LRegexEnd | S _ => None end
  else if N.eqb c 40 then Some (LRegex (S depth) false)
  else if N.eqb c 41 then
    match depth with O => None | S d => Some (LRegex d true) end
  else if N.eqb c 43 || N.eqb c 42 then
    if quantifiable then Some (LRegex depth false) else None
  else Some (LRegex depth true).

Definition lexChar (l : lexer) (c : codeunit) : option (list ltoken * lexer) :=
  let operand := lx_operand l in
  let nl := lx_nl l in
  match lx_state l with
  | LStart => startChar operand nl c
  | LInt ds =>
      if isDigit c then Some ([], mkLexer (LInt (ds ++ [c])) operand nl)
      else if N.eqb c 46 then
        if isLegacyOctal ds
        then Some ([(nl, TNum (integerLiteral ds))], mkLexer LDot true false)
        else Some ([], mkLexer (LFrac ds []) operand nl)
      else emitThen nl (TNum (integerLiteral ds)) true c
  | LFrac ip fp =>
      if isDigit c then Some ([], mkLexer (LFrac ip (fp ++ [c])) operand nl)
      else emitThen nl (TNum (decimalLiteral ip fp)) true c
  | LDot =>
      if isDigit c then Some ([], mkLexer (LFrac [] [c]) operand nl)
      else if N.eqb c 46 then Some ([], mkLexer LDot2 operand nl)
      else None
  | LDot2 =>
      if N.eqb c 46 then Some ([(nl, TEllipsis)], mkLexer LStart false false)
      else None
  | LPlus =>
      if N.eqb c 43 then Some ([(nl, TIncDec)], mkLexer LStart operand false)
      else emitThen nl (TOp Add) false c
  | LMinus =>
      if N.eqb c 45 then Some ([(nl, TIncDec)], mkLexer LStart operand false)
      else emitThen nl (TOp Sub) false c
  | LStar =>
      if N.eqb c 42 then Some ([(nl, TOp Pow)], mkLexer LStart false false)
      else emitThen nl (TOp Mul) false c
  | LSlash =>
      if N.eqb c 47 then Some ([], mkLexer LLineComment operand nl)
      else if N.eqb c 42 then Some ([], mkLexer (LBlockComment false) operand nl)
      else if operand then emitThen nl (TOp Div) false c
      else
        match regexChar 0 false c with
        | Some st => Some ([], mkLexer st operand nl)
        | None => None
        end
  | LLineComment =>
      if isLineTerminator c then Some ([], mkLexer LStart operand true)
      else Some ([], l)
  | LBlockComment star =>
      if star && N.eqb c 47 then Some ([], mkLexer LStart operand nl)
      else Some ([], mkLexer (LBlockComment (N.eqb c 42)) operand
                       (nl || isLineTerminator c))
  | LRegex depth q =>
      match regexChar depth q c with
      | Some st => Some ([], mkLexer st operand nl)
      | None => None
      end
  | LRegexEnd =>
      if isDigit c then None
      else emitThen nl TRegex true c
  end.

(** The end of the body. *)
Definition lexEnd (l : lexer) : option (list ltoken) :=
  let nl := lx_nl l in
  match lx_state l with
  | LStart | LLineComment => Some []
  | LInt ds => Some [(nl, TNum (integerLiteral ds))]
  | LFrac ip fp => Some [(nl, TNum (decimalLiteral ip fp))]
  | LPlus => Some [(nl, TOp Add)]
  | LMinus => Some [(nl, TOp Sub)]
  | LStar => Some [(nl, TOp Mul)]
  | LSlash => if lx_operand l then Some [(nl, TOp Div)] else None
  | LRegexEnd => Some [(nl, TRegex)]
  | LDot | LDot2 | LBlockComment _ | LRegex _ _ => None
  end.

Fixpoint lexFrom (l : lexer) (s : jsstring) : option (list ltoken) :=
  match s with
  | [] => lexEnd l
  | c :: r =>
      match lexChar l c with
      | None => None
      | Some (ts, l') =>
          match lexFrom l' r with
          | None => None
          | Some more => Some (ts ++ more)
          end
      end
  end.

(** The tokens of the text after [return ]; [None] is a SyntaxError. *)
Definition tokenize (s : jsstring) : option (list ltoken) :=
  lexFrom (mkLexer LStart false false) s.

(* ================================================================== *)
(** ** The function body [return s]: syntax

    An operator-precedence reading of the ECMAScript expression grammar
    over the tokens above, one token at a time.  Statements end by
    automatic semicolon insertion only (no [;] passes the whitelist). *)

Inductive unop := UPlus | UMinus.

Inductive expr :=
  | ENum (v : Number)
  | ERegex
  | EUnary (u : unop) (e : expr)
  | EBinary (o : binop) (a b : expr)
  | ECall (callee : expr)
  | ECallWith (callee arg : expr)
  | EUpdate (e : expr).

(** What is still open to the left of the operand being read. *)
Inductive frame :=
  | FBinary (lhs : expr) (o : binop)
  | FUnary (u : unop)
  | FUpdate
  | FGroup
  | FCall (callee : expr) (spread : bool).

Definition precedence (o : binop) : nat :=
  match o with
  | Add | Sub => 1
  | Mul | Div => 2
  | Pow => 3
  end.

Definition isCall (e : expr) : bool :=
  match e with ECall _ | ECallWith _ _ => true | _ => false end.

(** Close the frames that bind at least as tightly as [level].  A prefix
    [++]/[--] needs a call as operand (an error deferred to run time); a
    unary operator cannot be the base of [**] ([unaryOk = false]). *)
Fixpoint reduce (level : nat) (unaryOk : bool) (cur : expr) (stk : list frame)
  : option (expr * list frame) :=
  match stk with
  | FUnary u :: r =>
      if unaryOk then reduce level unaryOk (EUnary u cur) r else None
  | FUpdate :: r =>
      if isCall cur then reduce level unaryOk (EUpdate cur) r else None
  | FBinary lhs o :: r =>
      if Nat.leb level (precedence o)
      then reduce level unaryOk (EBinary o lhs cur) r
      else Some (cur, stk)
  | _ => Some (cur, stk)
  end.

Inductive mode :=
  | Operand
  | After (cur : expr) (lhs : bool).

(** [ps_return]: [None] while the return statement is being read, then its
    expression ([Some None] for a bare [return]). *)
Record pstate := mkP {
  ps_return : option (option expr);
  ps_stack : list frame;
  ps_mode : mode
}.

(** A token that starts an operand. *)
Definition operandToken (ret : option (option expr)) (stk : list frame) (t : token)
  : option pstate :=
  match t with
  | TNum v => Some (mkP ret stk (After (ENum v) true))
  | TRegex => Some (mkP ret stk (After ERegex true))
  | TOp Add => Some (mkP ret (FUnary UPlus :: stk) Operand)
  | TOp Sub => Some (mkP ret (FUnary UMinus :: stk) Operand)
  | TOp _ => None
  | TIncDec => Some (mkP ret (FUpdate :: stk) Operand)
  | TLParen => Some (mkP ret (FGroup :: stk) Operand)
  | TRParen =>
      match stk with
      | FCall callee false :: r => Some (mkP ret r (After (ECall callee) true))
      | _ => None
      end
  | TEllipsis =>
      match stk with
      | FCall callee false :: r => Some (mkP ret (FCall callee true :: r) Operand)
      | _ => None
      end
  end.

(** The end of a statement: nothing may be left open. *)
Definition endStatement (ret : option (option expr)) (cur : expr) (stk : list frame)
  : option (option (option expr)) :=
  match reduce 0 true cur stk with
  | Some (e, []) =>
      Some (match ret with None => Some (Some e) | Some r => Some r end)
  | _ => None
  end.

(** A token that cannot continue the expression: a semicolon is inserted
    before it when a LineTerminator precedes it. *)
Definition offending (ret : option (option expr)) (cur : expr) (stk : list frame)
  (nl : bool) (t : token) : option pstate :=
  if nl then
    match endStatement ret cur stk with
    | Some ret' => operandToken ret' [] t
    | None => None
    end
  else None.

Definition afterToken (ret : option (option expr)) (cur : expr) (lhs : bool)
  (stk : list frame) (nl : bool) (t : token) : option pstate :=
  match t with
  | TOp o =>
      let r := match o with
               | Pow => reduce 4 false cur stk
               | _ => reduce (precedence o) true cur stk
               end in
      match r with
      | Some (e, stk') => Some (mkP ret (FBinary e o :: stk') Operand)
      | None => None
      end
  | TLParen =>
      if lhs then Some (mkP ret (FCall cur false :: stk) Operand)
      else offending ret cur stk nl t
  | TIncDec =>
      if lhs && negb nl then
        if isCall cur then Some (mkP ret stk (After (EUpdate cur) false)) else None
      else offending ret cur stk nl t
  | TRParen =>
      match reduce 0 true cur stk with
      | Some (e, FGroup :: r) => Some (mkP ret r (After e true))
      | Some (e, FCall callee _ :: r) => Some (mkP ret r (After (ECallWith callee e) true))
      | _ => None
      end
  | TNum _ | TRegex | TEllipsis => offending ret cur stk nl t
  end.

Definition parseToken (p : pstate) (lt : ltoken) : option pstate :=
  let '(nl, t) := lt in
  match ps_mode p with
  | Operand => operandToken (ps_return p) (ps_stack p) t
  | After cur lhs => afterToken (ps_return p) cur lhs (ps_stack p) nl t
  end.

Fixpoint parseTokens (p : pstate) (ts : list ltoken) : option pstate :=
  match ts with
  | [] => Some p
  | lt :: r =>
      match parseToken p lt with
      | Some p' => parseTokens p' r
      | None => None
      end
  end.

(** The expression of the return statement of the body ([Some None] when
    the statement is a bare [return]); [None] is a SyntaxError.  A
    LineTerminator right after [return] ends the statement. *)
Definition parseBody (ts : list ltoken) : option (option expr) :=
  match ts with
  | [] => Some None
  | (nl, _) :: _ =>
      match parseTokens (mkP (if nl then Some None else None) [] Operand) ts with
      | Some p =>
          match ps_mode p with
          | Operand => None
          | After cur _ =>
              match endStatement (ps_return p) cur (ps_stack p) with
              | Some (Some r) => Some r
              | _ => None
              end
          end
      | None => None
      end
  end.

(* ================================================================== *)
(** ** The function body [return s]: evaluation *)

(** The values the body can compute.  [VText] stands for a RegExp object
    and for every string built from one by [+]: its text contains [/], so
    ToNumber gives [NaN] and [+] gives such a string again. *)
Inductive value :=
  | VNumber (x : Number)
  | VText
  | VUndefined.

Definition ToNumber (v : value) : Number :=
  match v with
  | VNumber x => x
  | VText | VUndefined => NaN
  end.

Definition isNegative (x : Number) : bool :=
  match x with
  | S754_zero s | S754_infinity s | S754_finite s _ _ => s
  | S754_nan => false
  end.

Definition isIntegral (x : Number) : bool :=
  match x with
  | S754_finite _ m (Zneg p) => Z.eqb (Zpos m mod Z.pow_pos 2 p) 0
  | S754_finite _ _ _ | S754_zero _ => true
  | _ => false
  end.

Definition isOddInteger (x : Number) : bool :=
  match x with
  | S754_finite _ m Z0 => Z.odd (Zpos m)
  | S754_finite _ m (Zneg p) =>
      Z.eqb (Zpos m mod Z.pow_pos 2 p) 0 && Z.odd (Zpos m / Z.pow_pos 2 p)
  | _ => false
  end.

(** An engine for the closed examples below; none of them evaluates [**],
    so its approximation is never consulted. *)
Definition examplePow (base exponent : Number) : Number := NaN.

Section Engine.

(** ECMA-262 leaves [base ** exponent] for finite non-zero operands
    "implementation-approximated": the engine's function is a parameter. *)
Variable approximatePow : Number -> Number -> Number.

(** Number::exponentiate. *)
Definition num_pow (base exponent : Number) : Number :=
  match exponent with
  | S754_nan => NaN
  | S754_zero _ => num_ofZ 1
  | _ =>
      let neg := isNegative exponent in
      let odd := isOddInteger exponent in
      match base with
      | S754_nan => NaN
      | S754_infinity false => if neg then posZero else posInf
      | S754_infinity true =>
          if neg then (if odd then negZero else posZero)
          else (if odd then negInf else posInf)
      | S754_zero false => if neg then posInf else posZero
      | S754_zero true =>
          if neg then (if odd then negInf else posInf)
          else (if odd then negZero else posZero)
      | S754_finite sb _ _ =>
          match exponent with
          | S754_infinity se =>
              match SFcompare (SFabs base) (num_ofZ 1) with
              | Some Gt => if se then posZero else posInf
              | Some Lt => if se then posInf else posZero
              | _ => NaN
              end
          | _ =>
              if sb && negb (isIntegral exponent) then NaN
              else approximatePow base exponent
          end
      end
  end.

Definition applyBinary (o : binop) (a b : value) : value :=
  match o with
  | Add =>
      match a, b with
      | VText, _ | _, VText => VText
      | _, _ => VNumber (num_add (ToNumber a) (ToNumber b))
      end
  | Sub => VNumber (num_sub (ToNumber a) (ToNumber b))
  | Mul => VNumber (num_mul (ToNumber a) (ToNumber b))
  | Div => VNumber (num_div (ToNumber a) (ToNumber b))
  | Pow => VNumber (num_pow (ToNumber a) (ToNumber b))
  end.

(** The value of an expression; [None] when its evaluation throws (a call
    of a value that is no function, an update of a call). *)
Fixpoint evalExpr (e : expr) : option value :=
  match e with
  | ENum v => Some (VNumber v)
  | ERegex => Some VText
  | EUnary u a =>
      match evalExpr a with
      | Some v =>
          Some (VNumber (match u with
                         | UPlus => ToNumber v
                         | UMinus => num_neg (ToNumber v)
                         end))
      | None => None
      end
  | EBinary o a b =>
      match evalExpr a with
      | Some va =>
          match evalExpr b with
          | Some vb => Some (applyBinary o va vb)
          | None => None
          end
      | None => None
      end
  | ECall _ | ECallWith _ _ | EUpdate _ => None
  end.

(** [new Function("return " + s)()]; [None] when it throws. *)
Definition runFunction (s : jsstring) : option value :=
  match tokenize s with
  | None => None
  | Some ts =>
      match parseBody ts with
      | None => None
      | Some None => Some VUndefined
      | Some (Some e) => evalExpr e
      end
  end.

(* ================================================================== *)
(** ** CalculatorScreen *)

Definition SECRET_CODE : jsstring := js "69/67".

Definition BUTTON_LAYOUT : list jsstring :=
  map js ["C"; "DEL"; "/"; "*"; "7"; "8"; "9"; "-"; "4"; "5"; "6"; "+";
          "1"; "2"; "3"; "="; "0"; "."]%string.

Definition checkSecretCode (expr : jsstring) : bool := jsstring_eqb expr SECRET_CODE.

(** [s.replace(/c/g, d)] for single code units. *)
Definition replaceAll (c d : codeunit) (s : jsstring) : jsstring :=
  map (fun x => if N.eqb x c then d else x) s.

(** One character of the class [[\d+\-*/.\s()]]. *)
Definition allowedChar (c : codeunit) : bool :=
  isDigit c || isOperator c || N.eqb c 46 || isSpace c || N.eqb c 40 || N.eqb c 41.

(** [/^[\d+\-*/.\s()]+$/.test(s)] *)
Definition whitelisted (s : jsstring) : bool :=
  match s with
  | [] => false
  | _ => forallb allowedChar s
  end.

Definition ERROR : jsstring := js "Error".

Definition evaluateExpression (expr : jsstring) : jsstring :=
  let cleanExpr := replaceAll 247 47 (replaceAll 215 42 expr) in
  if negb (whitelisted cleanExpr) then ERROR
  else
    match runFunction cleanExpr with
    | None => ERROR
    | Some result =>
        if negb (num_isFinite (ToNumber result)) then ERROR
        else
          let rounded :=
            num_div (Math_round (num_mul (ToNumber result) (num_ofZ 1000000000)))
                    (num_ofZ 1000000000) in
          numberToString rounded
    end.

(** [storage.ts]: a history entry. *)
Record HistoryItem := mkItem {
  id : jsstring;
  item_expression : jsstring;
  item_result : jsstring;
  timestamp : Z
}.

(** The value AsyncStorage holds under ["@calculator_history"]; [None]
    while the key is absent.  [setItem] is taken to succeed and
    [JSON.parse] to give back what [JSON.stringify] was given, so the
    [catch] branches of [saveHistory] and [loadHistory] are not reached. *)
Definition Storage := option (list HistoryItem).

Definition saveHistory (history : list HistoryItem) (_ : Storage) : Storage :=
  Some history.

Definition loadHistory (st : Storage) : list HistoryItem :=
  match st with
  | None => []
  | Some h => h
  end.

Inductive Route := Calculator | Notes.

(** The React state of [CalculatorScreen], the persisted history and the
    screen the navigator shows. *)
Record CalcState := mkState {
  expression : jsstring;
  result : jsstring;
  history : list HistoryItem;
  justCalculated : bool;
  storage : Storage;
  route : Route
}.

(** The state after the screen has mounted and its effect has run. *)
Definition mount (st : Storage) : CalcState :=
  mkState (js "0") [] (loadHistory st) false st Calculator.

(** [/\d/.test(value)] *)
Definition hasDigit (value : jsstring) : bool := existsb isDigit value.

(** [/[+\-*/]/.test(value)] *)
Definition hasOperator (value : jsstring) : bool := existsb isOperator value.

(** [/[+\-*/]$/.test(prev)] *)
Definition endsWithOperator (prev : jsstring) : bool :=
  match rev prev with
  | c :: _ => isOperator c
  | [] => false
  end.

(** [s.split(/[+\-*/]/)], with [cur] the part being read. *)
Fixpoint splitFrom (cur : jsstring) (s : jsstring) : list jsstring :=
  match s with
  | [] => [cur]
  | c :: r => if isOperator c then cur :: splitFrom [] r else splitFrom (cur ++ [c]) r
  end.

Definition split (s : jsstring) : list jsstring := splitFrom [] s.

(** [s.includes(".")] *)
Definition includesDot (s : jsstring) : bool := existsb (N.eqb 46) s.

(** [prev.slice(0, -1)] *)
Definition dropLast (prev : jsstring) : jsstring := removelast prev.

(** The updater passed to [setExpression] for a digit, an operator or
    [.]; [flag] and [res] are [justCalculated] and [result]. *)
Definition editExpression (flag : bool) (res value prev : jsstring) : jsstring :=
  if flag && hasDigit value then value
  else if flag && hasOperator value then res ++ value
  else if jsstring_eqb prev (js "0") && hasDigit value then value
  else if endsWithOperator prev && hasOperator value then dropLast prev ++ value
  else if jsstring_eqb value (js ".") then
    let parts := split prev in
    let lastNumber := last parts [] in
    if includesDot lastNumber then prev else prev ++ value
  else prev ++ value.

(** [handleButtonPress(value)], with the evaluator its closure captures;
    [now1] and [now2] are the two readings of [Date.now()] it takes when it
    adds a history entry. *)
Definition handleButtonPressWith (evaluate : jsstring -> jsstring)
  (now1 now2 : Z) (value : jsstring) (s : CalcState) : CalcState :=
  if jsstring_eqb value (js "C") then
    mkState (js "0") [] [] false (saveHistory [] (storage s)) (route s)
  else if jsstring_eqb value (js "DEL") then
    mkState (if Nat.leb (List.length (expression s)) 1 then js "0"
             else dropLast (expression s))
            (result s) (history s) false (storage s) (route s)
  else if jsstring_eqb value (js "=") then
    if checkSecretCode (expression s) then
      mkState (js "0") [] (history s) (justCalculated s) (storage s) Notes
    else
      let calcResult := evaluate (expression s) in
      if negb (jsstring_eqb calcResult ERROR) then
        let newHistoryItem :=
          mkItem (numberToString (num_ofZ now1)) (expression s) calcResult now2 in
        let updatedHistory := firstn 10 (newHistoryItem :: history s) in
        mkState (expression s) calcResult updatedHistory true
                (saveHistory updatedHistory (storage s)) (route s)
      else
        mkState (expression s) calcResult (history s) true (storage s) (route s)
  else
    mkState (editExpression (justCalculated s) (result s) value (expression s))
            (result s) (history s) false (storage s) (route s).

Definition handleButtonPress : Z -> Z -> jsstring -> CalcState -> CalcState :=
  handleButtonPressWith evaluateExpression.

(** What happens to the screen: a key press, or the app is started again
    (the component mounts afresh and loads the persisted history). *)
Inductive event :=
  | Press (now1 now2 : Z) (value : jsstring)
  | Relaunch.

Definition step (s : CalcState) (ev : event) : CalcState :=
  match ev with
  | Press now1 now2 value => handleButtonPress now1 now2 value s
  | Relaunch => mount (storage s)
  end.

Definition run (s : CalcState) (evs : list event) : CalcState := fold_left step evs s.

(** The keys of the grid. *)
Definition isButton (ev : event) : bool :=
  match ev with
  | Press _ _ value => existsb (jsstring_eqb value) BUTTON_LAYOUT
  | Relaunch => true
  end.

(** The state of a fresh installation. *)
Definition initial : CalcState := mount None.

(* ================================================================== *)
(** ** Reference definitions, in the words of the specification *)

(** *** Two-level precedence (specification 4.3)

    An expression is an operand followed by operators and operands.
    Multiplication and division bind tighter than addition and
    subtraction; each level associates to the left. *)

Inductive arith := Plus | Minus | Times | Divide.

Definition arithChar (o : arith) : codeunit :=
  match o with
  | Plus => 43
  | Minus => 45
  | Times => 42
  | Divide => 47
  end.

(** The text of the expression [n0 o1 n1 o2 n2 ...]. *)
Definition render (n0 : jsstring) (rest : list (arith * jsstring)) : jsstring :=
  n0 ++ flat_map (fun p => arithChar (fst p) :: snd p) rest.

(** An operand: a non-empty run of digits. *)
Definition isOperandText (ds : jsstring) : bool :=
  match ds with
  | [] => false
  | _ => forallb isDigit ds
  end.

Definition wellFormed (n0 : jsstring) (rest : list (arith * jsstring)) : bool :=
  isOperandText n0 && forallb (fun p => isOperandText (snd p)) rest.

(** The running sum with its pending sign ([true] for a subtraction),
    closed with the current product. *)
Definition addTerm (sum : option (Number * bool)) (term : Number) : Number :=
  match sum with
  | None => term
  | Some (a, false) => num_add a term
  | Some (a, true) => num_sub a term
  end.

Fixpoint twoLevel (sum : option (Number * bool)) (term : Number)
  (rest : list (arith * Number)) : Number :=
  match rest with
  | [] => addTerm sum term
  | (Times, v) :: r => twoLevel sum (num_mul term v) r
  | (Divide, v) :: r => twoLevel sum (num_div term v) r
  | (Plus, v) :: r => twoLevel (Some (addTerm sum term, false)) v r
  | (Minus, v) :: r => twoLevel (Some (addTerm sum term, true)) v r
  end.

(** Steps 4 and 5 of the evaluator: a non-finite value is an error, a
    finite one is rounded to nine decimals and printed. *)
Definition display (v : Number) : jsstring :=
  if num_isFinite v then
    numberToString (num_div (Math_round (num_mul v (num_ofZ 1000000000)))
                            (num_ofZ 1000000000))
  else ERROR.

Definition precedenceValue (n0 : jsstring) (rest : list (arith * jsstring)) : Number :=
  twoLevel None (integerLiteral n0)
           (map (fun p => (fst p, integerLiteral (snd p))) rest).

(** *** The error taxonomy (specification 7) *)

Definition normalized (s : jsstring) : jsstring :=
  replaceAll 247 47 (replaceAll 215 42 s).



(** *** The expression buffer (specification 3) *)




Definition nonEmpty (b : jsstring) : bool :=
  match b with
  | [] => false
  | _ => true
  end.









(** "The operand since the last operator": the longest suffix without an
    operator character. *)
Fixpoint takeOperand (revb : jsstring) : jsstring :=
  match revb with
  | c :: r => if isOperator c then [] else c :: takeOperand r
  | [] => []
  end.

Definition operandSinceLastOperator (b : jsstring) : jsstring :=
  rev (takeOperand (rev b)).

(** *** The history ledger (specification 3)

    Every successful evaluation since the last clear, newest first and
    without a cap. *)
Definition ledgerStep (s : CalcState) (ev : event) (log : list HistoryItem)
  : list HistoryItem :=
  match ev with
  | Press now1 now2 value =>
      if jsstring_eqb value (js "C") then []
      else if jsstring_eqb value (js "=")
              && negb (checkSecretCode (expression s))
              && negb (jsstring_eqb (evaluateExpression (expression s)) ERROR)
      then mkItem (numberToString (num_ofZ now1)) (expression s)
                  (evaluateExpression (expression s)) now2 :: log
      else log
  | Relaunch => log
  end.

Fixpoint ledger (s : CalcState) (evs : list event) (log : list HistoryItem)
  : list HistoryItem :=
  match evs with
  | [] => log
  | ev :: r => ledger (step s ev) r (ledgerStep s ev log)
  end.

(** *** The parser on an operand-operator sequence

    After an operand the parser holds at most two open frames: the sum so
    far with its sign ([true] for [-]) and the product so far with its
    operator ([true] for [/]). *)

Definition arithOp (o : arith) : binop :=
  match o with
  | Plus => Add
  | Minus => Sub
  | Times => Mul
  | Divide => Div
  end.

Definition pieceTokens (p : arith * jsstring) : list ltoken :=
  [(false, TOp (arithOp (fst p))); (false, TNum (integerLiteral (snd p)))].

Definition sumFrame (sum : option (expr * bool)) : list frame :=
  match sum with
  | Some (a, sg) => [FBinary a (if sg then Sub else Add)]
  | None => []
  end.

Definition prodFrame (prod : option (expr * bool)) : list frame :=
  match prod with
  | Some (t, dv) => [FBinary t (if dv then Div else Mul)]
  | None => []
  end.

Definition termExpr (prod : option (expr * bool)) (cur : expr) : expr :=
  match prod with
  | Some (t, dv) => EBinary (if dv then Div else Mul) t cur
  | None => cur
  end.

Definition sumExpr (sum : option (expr * bool)) (t : expr) : expr :=
  match sum with
  | Some (a, sg) => EBinary (if sg then Sub else Add) a t
  | None => t
  end.

Definition afterOperand (sum prod : option (expr * bool)) (cur : expr) : pstate :=
  mkP None (prodFrame prod ++ sumFrame sum) (After cur true).

Fixpoint astRun (sum prod : option (expr * bool)) (cur : expr)
  (rest : list (arith * jsstring)) : expr :=
  match rest with
  | [] => sumExpr sum (termExpr prod cur)
  | (o, n) :: r =>
      let v := ENum (integerLiteral n) in
      match o with
      | Times => astRun sum (Some (termExpr prod cur, false)) v r
      | Divide => astRun sum (Some (termExpr prod cur, true)) v r
      | Plus => astRun (Some (sumExpr sum (termExpr prod cur), false)) None v r
      | Minus => astRun (Some (sumExpr sum (termExpr prod cur), true)) None v r
      end
  end.

(** The state of the lexer after the first character of an operator. *)
Definition operatorState (o : arith) : lexstate :=
  match o with
  | Plus => LPlus
  | Minus => LMinus
  | Times => LStar
  | Divide => LSlash
  end.

(* ================================================================== *)
(** ** Definitions used by the proofs *)




(** The ledger in memory is the capped log, and the persisted copy agrees. *)
Definition ledgerAgrees (s : CalcState) (log : list HistoryItem) : Prop :=
  history s = firstn 10 log /\ loadHistory (storage s) = history s.

(** The value of the open sum, if there is one. *)
Definition sumValue (sum : option (expr * bool)) (sv : option (Number * bool)) : Prop :=
  match sum, sv with
  | None, None => True
  | Some (a, sg), Some (av, sg') => sg = sg' /\ evalExpr a = Some (VNumber av)
  | _, _ => False
  end.

(** Key presses and states for the examples. *)
Definition keysOf (ks : list string) : list event :=
  map (fun k => Press 0 0 (js k)) ks.

Definition stateWith (b : jsstring) : CalcState :=
  mkState b [] [] false None Calculator.

(* ================================================================== *)
(** ** [storage.ts]: notes *)

(** A note of the vault. *)
Record Note := mkNote {
  note_id : jsstring;
  note_content : jsstring;
  note_timestamp : Z
}.

(** The two keys the app keeps in AsyncStorage: ["@calculator_notes"] and
    ["@calculator_history"]; [None] while a key is absent.  As for the
    history, [setItem] is taken to succeed and [JSON.parse] to give back
    what [JSON.stringify] was given. *)
Record AsyncStore := mkStore {
  notesKey : option (list Note);
  historyKey : Storage
}.

Definition saveNotes (notes : list Note) (st : AsyncStore) : AsyncStore :=
  mkStore (Some notes) (historyKey st).

Definition loadNotes (st : AsyncStore) : list Note :=
  match notesKey st with
  | None => []
  | Some notes => notes
  end.

(** [addNote(content)]: [now1], [suffix] and [now2] are what [Date.now()],
    [Math.random().toString(36).substring(2, 9)] and the second
    [Date.now()] give. *)
Definition addNote (now1 : Z) (suffix : jsstring) (now2 : Z) (content : jsstring)
  (st : AsyncStore) : Note * AsyncStore :=
  let notes := loadNotes st in
  let newNote := mkNote (numberToString (num_ofZ now1) ++ suffix) content now2 in
  let updatedNotes := newNote :: notes in
  (newNote, saveNotes updatedNotes st).

(** [l.findIndex(p)]; [None] stands for [-1]. *)
Fixpoint findIndex {A : Type} (p : A -> bool) (l : list A) : option nat :=
  match l with
  | [] => None
  | x :: r => if p x then Some O else option_map S (findIndex p r)
  end.

(** [l[i] = x] for an index inside the array. *)
Fixpoint setAt {A : Type} (i : nat) (x : A) (l : list A) : list A :=
  match l, i with
  | [], _ => []
  | _ :: r, O => x :: r
  | y :: r, S j => y :: setAt j x r
  end.

(** [updateNote(id, content)]; [now] is the reading of [Date.now()]. *)
Definition updateNote (now : Z) (id content : jsstring) (st : AsyncStore)
  : option Note * AsyncStore :=
  let notes := loadNotes st in
  match findIndex (fun note => jsstring_eqb (note_id note) id) notes with
  | None => (None, st)
  | Some noteIndex =>
      match nth_error notes noteIndex with
      | Some old =>
          let notes' := setAt noteIndex (mkNote (note_id old) content now) notes in
          (nth_error notes' noteIndex, saveNotes notes' st)
      | None => (None, st)
      end
  end.

(** [deleteNote(id)] *)
Definition deleteNote (id : jsstring) (st : AsyncStore) : bool * AsyncStore :=
  let notes := loadNotes st in
  let updatedNotes := filter (fun note => negb (jsstring_eqb (note_id note) id)) notes in
  if Nat.eqb (List.length updatedNotes) (List.length notes) then (false, st)
  else (true, saveNotes updatedNotes st).

(** [getNoteById(id)] *)
Definition getNoteById (id : jsstring) (st : AsyncStore) : option Note :=
  find (fun note => jsstring_eqb (note_id note) id) (loadNotes st).

(** [clearAllData()]: both keys are removed. *)
Definition clearAllData (_ : AsyncStore) : AsyncStore := mkStore None None.

(* ================================================================== *)
(** ** [EditNoteScreen] and [NotesScreen] *)

Fixpoint dropSpaces (s : jsstring) : jsstring :=
  match s with
  | c :: r => if isSpace c then dropSpaces r else s
  | [] => []
  end.

(** [s.trim()]: white space and line terminators go from both ends. *)
Definition trim (s : jsstring) : jsstring := rev (dropSpaces (rev (dropSpaces s))).

(** [Boolean(noteId)] for the route parameter: absent and empty are false. *)
Definition isEditMode (noteId : option jsstring) : bool :=
  match noteId with
  | Some (_ :: _) => true
  | _ => false
  end.

(** What the user sees after Save: the "Empty Note" alert with the screen
    still open, or the screen closed. *)
Inductive SaveOutcome := EmptyNoteAlert | WentBack.

(** [handleSave] of [EditNoteScreen] on the typed [content]. *)
Definition handleSave (now1 : Z) (suffix : jsstring) (now2 : Z)
  (noteId : option jsstring) (content : jsstring) (st : AsyncStore)
  : SaveOutcome * AsyncStore :=
  let trimmedContent := trim content in
  if Nat.eqb (List.length trimmedContent) 0 then (EmptyNoteAlert, st)
  else
    match noteId with
    | Some id =>
        if isEditMode noteId
        then (WentBack, snd (updateNote now1 id trimmedContent st))
        else (WentBack, snd (addNote now1 suffix now2 trimmedContent st))
    | None => (WentBack, snd (addNote now1 suffix now2 trimmedContent st))
    end.

(** [loadNote] of [EditNoteScreen]: the content and the original note the
    screen holds once the note was looked up. *)
Definition loadNote (noteId : jsstring) (st : AsyncStore) : jsstring * option Note :=
  match getNoteById noteId st with
  | Some note => (note_content note, Some note)
  | None => ([], None)
  end.

(** [hasChanges] of [handleCancel]: whether Cancel asks before leaving. *)
Definition hasChanges (noteId : option jsstring) (content : jsstring)
  (originalNote : option Note) : bool :=
  if isEditMode noteId then
    match originalNote with
    | Some note => negb (jsstring_eqb content (note_content note))
    | None => true
    end
  else negb (Nat.eqb (List.length (trim content)) 0).

(** What the user does in the vault: save a new note, save an edit of the
    note opened under an id, delete a note (confirming the alert). *)
Inductive vaultAction :=
  | SaveNew (now1 : Z) (suffix : jsstring) (now2 : Z) (content : jsstring)
  | SaveEdit (now : Z) (id : jsstring) (content : jsstring)
  | Delete (id : jsstring).

Definition vaultStep (st : AsyncStore) (a : vaultAction) : AsyncStore :=
  match a with
  | SaveNew now1 suffix now2 content =>
      snd (handleSave now1 suffix now2 None content st)
  | SaveEdit now id content =>
      snd (handleSave now [] now (Some id) content st)
  | Delete id => snd (deleteNote id st)
  end.

Definition vaultRun (st : AsyncStore) (actions : list vaultAction) : AsyncStore :=
  fold_left vaultStep actions st.

(** A text that does not start with a space. *)
Definition noLeadingSpace (l : jsstring) : bool :=
  match l with
  | c :: _ => negb (isSpace c)
  | [] => true
  end.

(** A stored content is never blank and carries no space at either end. *)
Definition tidy (s : jsstring) : bool :=
  nonEmpty s && jsstring_eqb (trim s) s.

(* ================================================================== *)
(** ** Definitions for the properties of the keys *)

(** An entry of the ledger that is a successful evaluation of a text
    other than the secret code. *)
Definition honestItem (h : HistoryItem) : bool :=
  negb (checkSecretCode (item_expression h))
  && negb (jsstring_eqb (item_result h) ERROR)
  && jsstring_eqb (item_result h) (evaluateExpression (item_expression h)).

(** The events type the text: one press of a one-character key for each
    character, whatever the clock reads. *)
Fixpoint spells (evs : list event) (t : jsstring) : bool :=
  match evs, t with
  | [], [] => true
  | Press _ _ [c] :: evs', d :: t' => N.eqb c d && spells evs' t'
  | _, _ => false
  end.

(** A first operand the keys can type as it stands: one digit, or digits
    that do not start with [0] (a digit typed on the buffer ["0"] replaces
    it). *)
Definition typable (n0 : jsstring) : bool :=
  match n0 with
  | [] => false
  | [_] => true
  | c :: _ => negb (N.eqb c 48)
  end.

(** The state with another buffer and the flag down: what a key that
    edits the buffer leaves. *)
Definition withExpression (s : CalcState) (b : jsstring) : CalcState :=
  mkState b (result s) (history s) false (storage s) (route s).

(** Presses of [DEL]. *)
Definition isDel (ev : event) : bool :=
  match ev with
  | Press _ _ value => jsstring_eqb value (js "DEL")
  | Relaunch => false
  end.

(** The number of decimal points of a text. *)
Definition dots (s : jsstring) : nat :=
  List.length (filter (fun c => N.eqb c 46) s).

(** No part of [b.split(/[+\-*/]/)] holds two decimal points. *)
Definition oneDotPerOperand (b : jsstring) : bool :=
  forallb (fun part => Nat.leb (dots part) 1) (split b).

Definition dotOf (c : codeunit) : nat := if N.eqb c 46 then 1%nat else 0%nat.

(** The same read from the left, with [n] points in the operand so far. *)
Fixpoint scanDots (n : nat) (s : jsstring) : bool :=
  match s with
  | [] => Nat.leb n 1
  | c :: r => if isOperator c then Nat.leb n 1 && scanDots 0 r
              else scanDots (n + dotOf c) r
  end.

(** The points of the operand the text ends with. *)
Fixpoint lastDots (n : nat) (s : jsstring) : nat :=
  match s with
  | [] => n
  | c :: r => if isOperator c then lastDots 0 r else lastDots (n + dotOf c) r
  end.

(** A storage with two notes, for the examples. *)
Definition exampleNotes : AsyncStore :=
  mkStore (Some [mkNote (js "a") (js "old") 1; mkNote (js "b") (js "other") 2]) None.

(** A literal of zeros only. *)
Definition isZeroText (z : jsstring) : bool :=
  nonEmpty z && forallb (fun c => N.eqb c 48) z.

(** Some operand that divides is a literal zero. *)
Definition dividesByZero (rest : list (arith * jsstring)) : bool :=
  existsb (fun p => match fst p with
                    | Divide => isZeroText (snd p)
                    | _ => false
                    end) rest.

(** The running sum is already an infinity or [NaN]. *)
Definition sumNonFinite (sum : option (Number * bool)) : bool :=
  match sum with
  | Some (a, _) => negb (num_isFinite a)
  | None => false
  end.

(** *** Operands with a decimal point

    The numeric literals the keys can type: digits, or digits with one
    point before, between or after them.  A point after a leading zero
    followed by octal digits ([010.5]) is a syntax error of the language
    and is left out. *)

Inductive operand :=
  | Whole (ds : jsstring)
  | Fraction (ip fp : jsstring).










(* ================================================================== *)
(** ** Strings *)

Lemma jsstring_eqb_eq (a b : jsstring) : jsstring_eqb a b = true <-> a = b.
Proof.
  revert b; induction a as [|x a IH]; intros [|y b]; simpl; split; intro H;
    try reflexivity; try discriminate.
  - apply andb_true_iff in H as [Hx Hr].
    apply N.eqb_eq in Hx. apply IH in Hr. now subst.
  - injection H as -> ->. now rewrite N.eqb_refl, (proj2 (IH b) eq_refl).
Qed.

Lemma jsstring_eqb_refl (a : jsstring) : jsstring_eqb a a = true.
Proof. now apply jsstring_eqb_eq. Qed.

Lemma jsstring_eqb_neq (a b : jsstring) : jsstring_eqb a b = false <-> a <> b.
Proof.
  split.
  - intros H E. apply jsstring_eqb_eq in E. congruence.
  - intro H. destruct (jsstring_eqb a b) eqn:E; [|reflexivity].
    apply jsstring_eqb_eq in E. contradiction.
Qed.

(* ================================================================== *)
(** ** The secret trigger *)

(** C1. [checkSecretCode] accepts exactly the literal ["69/67"]: the near
    miss ["69/68"] and the prefix ["696"] are rejected, and on every
    buffer other than the literal [=] takes the evaluation path (the
    result shown is the evaluator's, the flag is set, the route stays). *)
Theorem checkSecretCode_exact :
  (forall b : jsstring, checkSecretCode b = true <-> b = js "69/67")
  /\ checkSecretCode (js "69/68") = false
  /\ checkSecretCode (js "696") = false
  /\ (forall now1 now2 s,
        expression s <> js "69/67" ->
        let s' := handleButtonPress now1 now2 (js "=") s in
        result s' = evaluateExpression (expression s)
        /\ expression s' = expression s
        /\ justCalculated s' = true
        /\ route s' = route s).
Proof.
  split; [|split; [|split]].
  - intro b. unfold checkSecretCode, SECRET_CODE. apply jsstring_eqb_eq.
  - reflexivity.
  - reflexivity.
  - intros now1 now2 s Hne s'. subst s'.
    unfold handleButtonPress, handleButtonPressWith.
    change (jsstring_eqb (js "=") (js "C")) with false.
    change (jsstring_eqb (js "=") (js "DEL")) with false.
    change (jsstring_eqb (js "=") (js "=")) with true.
    cbv iota.
    assert (Hs : checkSecretCode (expression s) = false).
    { unfold checkSecretCode, SECRET_CODE. now apply jsstring_eqb_neq. }
    rewrite Hs.
    destruct (negb (jsstring_eqb (evaluateExpression (expression s)) ERROR));
      simpl; repeat split; reflexivity.
Qed.

(** C2. [=] on the buffer ["69/67"]: the buffer becomes ["0"], the
    displayed result is emptied (no error is shown), the ledger and its
    persisted copy are untouched, the vault opens; and this holds
    whatever the evaluator is, which is never applied. *)
Theorem secret_press_leaves_no_trace :
  forall (evaluate : jsstring -> jsstring) now1 now2 res hist flag st rt,
    handleButtonPressWith evaluate now1 now2 (js "=")
      (mkState (js "69/67") res hist flag st rt)
    = mkState (js "0") [] hist flag st Notes.
Proof. reflexivity. Qed.

(** C7. [C] from any state: buffer ["0"], no displayed result, flag
    cleared, ledger empty in memory and in storage. *)
Theorem clear_resets_everything :
  forall now1 now2 s,
    let s' := handleButtonPress now1 now2 (js "C") s in
    expression s' = js "0"
    /\ result s' = []
    /\ justCalculated s' = false
    /\ history s' = []
    /\ storage s' = Some []
    /\ loadHistory (storage s') = [].
Proof. intros; repeat split; reflexivity. Qed.

(* ================================================================== *)
(** ** Key presses *)

Lemma isDigit_range (c : codeunit) : isDigit c = true <-> (48 <= c <= 57)%N.
Proof.
  unfold isDigit. rewrite andb_true_iff, !N.leb_le. tauto.
Qed.

Lemma isOperator_cases (c : codeunit) :
  isOperator c = true <-> (c = 43 \/ c = 45 \/ c = 42 \/ c = 47)%N.
Proof.
  unfold isOperator. rewrite !orb_true_iff, !N.eqb_eq. tauto.
Qed.

Lemma digit_not_operator (c : codeunit) : isDigit c = true -> isOperator c = false.
Proof.
  intro H. apply isDigit_range in H.
  destruct (isOperator c) eqn:E; [|reflexivity].
  apply isOperator_cases in E. lia.
Qed.

Lemma operator_not_digit (c : codeunit) : isOperator c = true -> isDigit c = false.
Proof.
  intro H. destruct (isDigit c) eqn:E; [|reflexivity].
  apply digit_not_operator in E. congruence.
Qed.

(** A one-character key other than [C] and [=] edits the expression. *)
Lemma press_char (evaluate : jsstring -> jsstring) now1 now2 (c : codeunit) s :
  c <> 67%N -> c <> 61%N ->
  handleButtonPressWith evaluate now1 now2 [c] s
  = mkState (editExpression (justCalculated s) (result s) [c] (expression s))
            (result s) (history s) false (storage s) (route s).
Proof.
  intros HC HE. unfold handleButtonPressWith. simpl jsstring_eqb.
  apply N.eqb_neq in HC, HE. rewrite HC, HE, andb_false_r. reflexivity.
Qed.

Lemma press_equals (evaluate : jsstring -> jsstring) now1 now2 s :
  checkSecretCode (expression s) = false ->
  handleButtonPressWith evaluate now1 now2 (js "=") s
  = if negb (jsstring_eqb (evaluate (expression s)) ERROR) then
      mkState (expression s) (evaluate (expression s))
        (firstn 10 (mkItem (numberToString (num_ofZ now1)) (expression s)
                           (evaluate (expression s)) now2 :: history s))
        true
        (Some (firstn 10 (mkItem (numberToString (num_ofZ now1)) (expression s)
                                 (evaluate (expression s)) now2 :: history s)))
        (route s)
    else mkState (expression s) (evaluate (expression s)) (history s) true
                 (storage s) (route s).
Proof.
  intro H. unfold handleButtonPressWith.
  change (jsstring_eqb (js "=") (js "C")) with false.
  change (jsstring_eqb (js "=") (js "DEL")) with false.
  change (jsstring_eqb (js "=") (js "=")) with true.
  cbv iota. rewrite H. reflexivity.
Qed.

Lemma press_secret (evaluate : jsstring -> jsstring) now1 now2 s :
  checkSecretCode (expression s) = true ->
  handleButtonPressWith evaluate now1 now2 (js "=") s
  = mkState (js "0") [] (history s) (justCalculated s) (storage s) Notes.
Proof.
  intro H. unfold handleButtonPressWith.
  change (jsstring_eqb (js "=") (js "C")) with false.
  change (jsstring_eqb (js "=") (js "DEL")) with false.
  change (jsstring_eqb (js "=") (js "=")) with true.
  cbv iota. rewrite H. reflexivity.
Qed.

Lemma secret_evaluates : evaluateExpression SECRET_CODE = js "1.029850746".
Proof. vm_compute. reflexivity. Qed.

Lemma error_not_secret (b : jsstring) :
  evaluateExpression b = ERROR -> checkSecretCode b = false.
Proof.
  intro H. destruct (checkSecretCode b) eqn:E; [|reflexivity].
  apply jsstring_eqb_eq in E. subst b. rewrite secret_evaluates in H. discriminate.
Qed.

(** C5. An [=] whose evaluation returns ["Error"] leaves the buffer, the
    ledger and its persisted copy as they were (only the display shows
    ["Error"]), and [DEL] then edits that same buffer. *)
Theorem error_keeps_buffer_and_ledger :
  forall now1 now2 s,
    evaluateExpression (expression s) = ERROR ->
    let s' := handleButtonPress now1 now2 (js "=") s in
    expression s' = expression s
    /\ history s' = history s
    /\ storage s' = storage s
    /\ result s' = ERROR
    /\ (forall t1 t2,
          expression (handleButtonPress t1 t2 (js "DEL") s')
          = if Nat.leb (List.length (expression s)) 1 then js "0"
            else dropLast (expression s)).
Proof.
  intros now1 now2 s H s'. subst s'. unfold handleButtonPress.
  rewrite press_equals by now apply error_not_secret.
  rewrite H. rewrite jsstring_eqb_refl. simpl. repeat split; reflexivity.
Qed.

(** C10. Every [=] that is not the secret sets the flag, also when the
    evaluation fails; the next digit then replaces the buffer, and the
    next operator makes it the displayed result followed by the operator,
    which is ["Error"] and the operator after a failure. *)
Theorem equals_sets_flag_for_next_key :
  forall now1 now2 s,
    checkSecretCode (expression s) = false ->
    let s1 := handleButtonPress now1 now2 (js "=") s in
    justCalculated s1 = true
    /\ result s1 = evaluateExpression (expression s)
    /\ (forall t1 t2 d, isDigit d = true ->
          expression (handleButtonPress t1 t2 [d] s1) = [d])
    /\ (forall t1 t2 o, isOperator o = true ->
          expression (handleButtonPress t1 t2 [o] s1) = result s1 ++ [o])
    /\ (evaluateExpression (expression s) = ERROR ->
        forall t1 t2 o, isOperator o = true ->
          expression (handleButtonPress t1 t2 [o] s1) = js "Error" ++ [o]).
Proof.
  intros now1 now2 s Hs s1.
  assert (Hflag : justCalculated s1 = true
                  /\ result s1 = evaluateExpression (expression s)).
  { subst s1. unfold handleButtonPress. rewrite press_equals by assumption.
    destruct (negb _); split; reflexivity. }
  destruct Hflag as [Hj Hr].
  assert (Hop : forall t1 t2 o, isOperator o = true ->
            expression (handleButtonPress t1 t2 [o] s1) = result s1 ++ [o]).
  { intros t1 t2 o Ho. unfold handleButtonPress.
    pose proof (proj1 (isOperator_cases o) Ho) as Hc.
    rewrite press_char by lia. simpl expression.
    unfold editExpression. rewrite Hj. simpl.
    rewrite (operator_not_digit o Ho), Ho. reflexivity. }
  repeat split; try assumption.
  - intros t1 t2 d Hd. unfold handleButtonPress.
    pose proof (proj1 (isDigit_range d) Hd) as Hc.
    rewrite press_char by lia. simpl expression.
    unfold editExpression. rewrite Hj. simpl. rewrite Hd. reflexivity.
  - intros He t1 t2 o Ho. rewrite (Hop t1 t2 o Ho), Hr, He. reflexivity.
Qed.

(* ================================================================== *)
(** ** The decimal point *)

Lemma takeOperand_free (l : jsstring) :
  existsb isOperator l = false -> takeOperand l = l.
Proof.
  induction l as [|c l IH]; simpl; [reflexivity|].
  rewrite orb_false_iff. intros [Hc Hl]. rewrite Hc, (IH Hl). reflexivity.
Qed.

Lemma takeOperand_stop (a b : jsstring) (c : codeunit) :
  isOperator c = true -> takeOperand (a ++ c :: b) = takeOperand a.
Proof.
  intro Hc. induction a as [|x a IH]; simpl.
  - now rewrite Hc.
  - destruct (isOperator x); [reflexivity|]. now rewrite IH.
Qed.

Lemma existsb_rev {A} (f : A -> bool) (l : list A) :
  existsb f (rev l) = existsb f l.
Proof.
  induction l as [|x l IH]; simpl; [reflexivity|].
  rewrite existsb_app, IH. simpl. rewrite orb_false_r. apply orb_comm.
Qed.

Lemma splitFrom_nonempty (cur s : jsstring) : splitFrom cur s <> [].
Proof.
  revert cur; induction s as [|c s IH]; intro cur; simpl; [discriminate|].
  destruct (isOperator c); [discriminate|apply IH].
Qed.

Lemma last_splitFrom (s cur : jsstring) :
  existsb isOperator cur = false ->
  last (splitFrom cur s) [] = operandSinceLastOperator (cur ++ s).
Proof.
  revert cur; induction s as [|c s IH]; intros cur Hcur.
  - simpl. rewrite app_nil_r. unfold operandSinceLastOperator.
    rewrite takeOperand_free by now rewrite existsb_rev.
    now rewrite rev_involutive.
  - simpl splitFrom. destruct (isOperator c) eqn:Hc.
    + assert (Hl : last (cur :: splitFrom [] s) [] = last (splitFrom [] s) []).
      { destruct (splitFrom [] s) eqn:E; [now apply splitFrom_nonempty in E|reflexivity]. }
      rewrite Hl, (IH [] eq_refl). simpl app.
      unfold operandSinceLastOperator.
      rewrite rev_app_distr. simpl rev. rewrite <- app_assoc. simpl app.
      now rewrite takeOperand_stop.
    + rewrite IH.
      * now rewrite <- app_assoc.
      * rewrite existsb_app, Hcur. simpl. now rewrite Hc.
Qed.

(** C9. [.] leaves the buffer as it is when the operand since the last
    operator holds a [.], and is appended otherwise, whatever the flag and
    the displayed result are; ["3.5"] stays ["3.5"]. *)
Theorem decimal_point_guard :
  (forall now1 now2 s,
      expression (handleButtonPress now1 now2 (js ".") s)
      = if includesDot (operandSinceLastOperator (expression s))
        then expression s
        else expression s ++ js ".")
  /\ (forall now1 now2 res hist flag st rt,
        expression (handleButtonPress now1 now2 (js ".")
                      (mkState (js "3.5") res hist flag st rt)) = js "3.5").
Proof.
  assert (H : forall now1 now2 s,
      expression (handleButtonPress now1 now2 (js ".") s)
      = if includesDot (operandSinceLastOperator (expression s))
        then expression s
        else expression s ++ js ".").
  { intros now1 now2 s. unfold handleButtonPress.
    change (js ".") with [46%N]. rewrite press_char by lia.
    simpl expression. unfold editExpression.
    change (hasDigit [46%N]) with false.
    change (hasOperator [46%N]) with false.
    change (jsstring_eqb [46%N] (js ".")) with true.
    rewrite !andb_false_r. cbv iota.
    unfold split. rewrite (last_splitFrom (expression s) [] eq_refl).
    reflexivity. }
  split; [exact H|].
  intros. rewrite H. reflexivity.
Qed.

(* ================================================================== *)
(** ** The shape of a printed Number *)


Lemma endsWithOperator_app (a : jsstring) (c : codeunit) :
  endsWithOperator (a ++ [c]) = isOperator c.
Proof.
  unfold endsWithOperator. rewrite rev_app_distr. reflexivity.
Qed.








Lemma uint_digits_digits (u : Decimal.uint) : forallb isDigit (uint_digits u) = true.
Proof. induction u; simpl; auto. Qed.

Lemma decimalDigits_digits (z : Z) : forallb isDigit (decimalDigits z) = true.
Proof. apply uint_digits_digits. Qed.



Lemma all_zero_value (u : Decimal.uint) :
  forallb (fun c => N.eqb c 48) (uint_digits u) = true -> Pos.of_uint u = 0%N.
Proof. induction u; simpl; intro H; try discriminate; auto. Qed.

Lemma dropZeros_nil (l : jsstring) :
  dropZeros l = [] -> forallb (fun c => N.eqb c 48) l = true.
Proof.
  induction l as [|c l IH]; simpl; [reflexivity|].
  destruct (N.eqb c 48); simpl; [exact IH|discriminate].
Qed.

Lemma dropZeros_forallb (f : codeunit -> bool) (l : jsstring) :
  forallb f l = true -> forallb f (dropZeros l) = true.
Proof.
  induction l as [|c l IH]; simpl; [reflexivity|].
  rewrite andb_true_iff. intros [Hc Hl].
  destruct (N.eqb c 48); [now apply IH|]. simpl. now rewrite Hc, Hl.
Qed.

Lemma forallb_rev {A} (f : A -> bool) (l : list A) : forallb f (rev l) = forallb f l.
Proof.
  induction l as [|x l IH]; simpl; [reflexivity|].
  rewrite forallb_app, IH. simpl. rewrite andb_true_r. apply andb_comm.
Qed.

(** The significant digits of a positive integer: no digit is lost
    entirely when the trailing zeros go. *)
Lemma significant_digits (s : Z) :
  0 < s ->
  let ds := rev (dropZeros (rev (decimalDigits s))) in
  nonEmpty ds = true /\ forallb isDigit ds = true.
Proof.
  intros Hs ds. split.
  - subst ds. destruct (dropZeros (rev (decimalDigits s))) as [|c l] eqn:E.
    + exfalso. apply dropZeros_nil in E. rewrite forallb_rev in E.
      unfold decimalDigits in E. apply all_zero_value in E.
      change (Pos.of_uint (N.to_uint (Z.to_N s))) with (N.of_uint (N.to_uint (Z.to_N s))) in E.
      rewrite DecimalN.Unsigned.of_to in E. lia.
    + destruct (rev (c :: l)) eqn:E'; [|reflexivity].
      apply (f_equal (@List.length _)) in E'. rewrite length_rev in E'. discriminate.
  - subst ds. rewrite forallb_rev. apply dropZeros_forallb.
    rewrite forallb_rev. apply decimalDigits_digits.
Qed.

Lemma roundTrips_pos (m : positive) (e s q : Z) : roundTrips m e s q = true -> 0 < s.
Proof.
  unfold roundTrips, num_ofDecimal. destruct s; try discriminate. lia.
Qed.

Lemma candidate_pos (m : positive) (e bigN k s : Z) :
  candidate m e bigN k = Some s -> 0 < s.
Proof.
  unfold candidate.
  destruct (fractionOf m e) as [num den].
  destruct (scale10 num den (- (bigN - k))) as [a b].
  destruct (roundTrips m e (a / b) (bigN - k)) eqn:Hlo;
    destruct (roundTrips m e (a / b + 1) (bigN - k)) eqn:Hhi;
    try discriminate.
  - apply roundTrips_pos in Hlo, Hhi.
    destruct (2 * (a mod b) ?= b); [destruct (Z.even (a / b))| |];
      intro H; injection H as <-; assumption.
  - apply roundTrips_pos in Hlo. intro H; injection H as <-; assumption.
  - apply roundTrips_pos in Hhi. intro H; injection H as <-; assumption.
Qed.

Lemma shortest_pos (fuel : nat) (m : positive) (e bigN k : Z) :
  0 < fst (shortest fuel m e bigN k).
Proof.
  revert k; induction fuel as [|f IH]; intro k; simpl.
  - lia.
  - destruct (candidate m e bigN k) as [s|] eqn:E.
    + simpl. now apply candidate_pos in E.
    + apply IH.
Qed.

Lemma shortestDigits_digits (m : positive) (e : Z) :
  nonEmpty (fst (shortestDigits m e)) = true
  /\ forallb isDigit (fst (shortestDigits m e)) = true.
Proof.
  unfold shortestDigits. destruct (fractionOf m e) as [num den].
  pose proof (shortest_pos 17 m e (decimalExponent num den) 1) as Hpos.
  destruct (shortest 17 m e (decimalExponent num den) 1) as [s k].
  simpl in *. now apply significant_digits.
Qed.

Lemma zeros_digits (n : Z) : forallb isDigit (zeros n) = true.
Proof.
  unfold zeros. induction (Z.to_nat n) as [|k IH]; simpl; [reflexivity|exact IH].
Qed.

Lemma forallb_firstn {A} (f : A -> bool) (n : nat) (l : list A) :
  forallb f l = true -> forallb f (firstn n l) = true.
Proof.
  revert n; induction l as [|x l IH]; intros [|n]; simpl; auto.
  rewrite !andb_true_iff. intros [Hx Hl]. split; [exact Hx|now apply IH].
Qed.

Lemma forallb_skipn {A} (f : A -> bool) (n : nat) (l : list A) :
  forallb f l = true -> forallb f (skipn n l) = true.
Proof.
  revert n; induction l as [|x l IH]; intros [|n]; simpl; auto.
  rewrite andb_true_iff. intros [_ Hl]. now apply IH.
Qed.








(** *** The rounded value is a Number or an infinity, never [NaN] *)

Lemma shr_1_nonneg (mrs : shr_record) : 0 <= shr_m mrs -> 0 <= shr_m (shr_1 mrs).
Proof.
  destruct mrs as [m r s]. simpl. intro H.
  destruct m as [|[p|p|]|[p|p|]]; simpl; lia.
Qed.

Lemma iter_shr_1_nonneg (p : positive) (mrs : shr_record) :
  0 <= shr_m mrs -> 0 <= shr_m (iter_pos shr_1 p mrs).
Proof.
  revert mrs; induction p as [p IH|p IH|]; intros mrs H; simpl.
  - apply IH, IH. now apply shr_1_nonneg.
  - now apply IH, IH.
  - now apply shr_1_nonneg.
Qed.

Lemma shr_fexp_nonneg (m e : Z) (l : location) :
  0 <= m -> 0 <= shr_m (fst (shr_fexp prec emax m e l)).
Proof.
  intro H. unfold shr_fexp, shr.
  assert (H0 : 0 <= shr_m (shr_record_of_loc m l)) by (destruct l as [|[]]; exact H).
  destruct (fexp prec emax (Zdigits2 m + e) - e); simpl; try exact H0.
  now apply iter_shr_1_nonneg.
Qed.

Lemma binary_round_aux_notNaN (sx : bool) (mx ex : Z) (lx : location) :
  0 <= mx -> notNaN (binary_round_aux prec emax sx mx ex lx) = true.
Proof.
  intro H. unfold binary_round_aux.
  pose proof (shr_fexp_nonneg mx ex lx H) as H1.
  destruct (shr_fexp prec emax mx ex lx) as [mrs' e']. simpl in H1.
  assert (H2 : 0 <= round_nearest_even (shr_m mrs') (loc_of_shr_record mrs')).
  { unfold round_nearest_even. destruct (loc_of_shr_record mrs') as [|[]];
      try destruct (Z.even (shr_m mrs')); lia. }
  pose proof (shr_fexp_nonneg _ e' loc_Exact H2) as H3.
  destruct (shr_fexp prec emax _ e' loc_Exact) as [mrs'' e'']. simpl in H3.
  destruct (shr_m mrs'') as [|p|p]; [reflexivity| |lia].
  destruct (e'' <=? emax - prec); reflexivity.
Qed.

Lemma num_ofZ_notNaN (z : Z) : notNaN (num_ofZ z) = true.
Proof.
  unfold num_ofZ, binary_normalize, binary_round.
  destruct z as [|p|p]; [reflexivity| |].
  - destruct (shl_align p 0 _) as [mz ez]. now apply binary_round_aux_notNaN.
  - destruct (shl_align p 0 _) as [mz ez]. now apply binary_round_aux_notNaN.
Qed.

Lemma Math_round_notNaN (x : Number) : notNaN x = true -> notNaN (Math_round x) = true.
Proof.
  destruct x as [s|s| |s m e]; simpl; try (intro; assumption || reflexivity).
  intros _. destruct e; try reflexivity.
  destruct (_ =? 0); [reflexivity|apply num_ofZ_notNaN].
Qed.

Lemma num_mul_notNaN (x y : Number) :
  num_isFinite x = true -> num_isFinite y = true -> notNaN (num_mul x y) = true.
Proof.
  destruct x as [s|s| |s m e], y as [t|t| |t m' e']; simpl; try discriminate;
    intros _ _; try reflexivity.
  now apply binary_round_aux_notNaN.
Qed.

Lemma num_div_notNaN (x : Number) (t : bool) (m' : positive) (e' : Z) :
  notNaN x = true -> notNaN (num_div x (S754_finite t m' e')) = true.
Proof.
  destruct x as [s|s| |s m e]; simpl; try discriminate; intros _; try reflexivity.
  unfold SFdiv_core_binary.
  set (d := Z.min _ _). set (sh := e - e' - d).
  set (mm := match sh with
             | Z0 => Z.pos m
             | Z.pos _ => Z.shiftl (Z.pos m) sh
             | Z.neg _ => 0
             end).
  assert (Hmm : 0 <= mm).
  { subst mm. destruct sh; try lia. apply Z.shiftl_nonneg. lia. }
  pose proof (Z.div_pos mm (Z.pos m') Hmm ltac:(lia)) as Hq.
  unfold Z.div in Hq. destruct (Z.div_eucl mm (Z.pos m')) as [q r]. simpl in Hq.
  now apply binary_round_aux_notNaN.
Qed.

Lemma rounded_notNaN (x : Number) :
  num_isFinite x = true ->
  notNaN (num_div (Math_round (num_mul x (num_ofZ 1000000000)))
                  (num_ofZ 1000000000)) = true.
Proof.
  intro H.
  change (num_ofZ 1000000000) with (S754_finite false 8388608000000000 (-23)).
  apply num_div_notNaN, Math_round_notNaN, num_mul_notNaN; [exact H|reflexivity].
Qed.

(** What [evaluateExpression] returns: ["Error"], or a printed Number. *)
Lemma evaluateExpression_cases (s : jsstring) :
  evaluateExpression s = ERROR
  \/ exists x, notNaN x = true /\ evaluateExpression s = numberToString x.
Proof.
  unfold evaluateExpression.
  destruct (negb (whitelisted _)); [now left|].
  destruct (runFunction _) as [v|]; [|now left].
  destruct (num_isFinite (ToNumber v)) eqn:Hf; [|now left].
  right. eexists. split; [|reflexivity]. now apply rounded_notNaN.
Qed.


(* ================================================================== *)
(** ** The error value *)


(* ================================================================== *)
(** ** The expression buffer along a run *)


Lemma removelast_snoc (p : jsstring) (x : codeunit) : removelast (p ++ [x]) = p.
Proof. apply removelast_last. Qed.


Lemma nonEmpty_snoc (p : jsstring) (x : codeunit) : nonEmpty (p ++ [x]) = true.
Proof. destruct p; reflexivity. Qed.


(** The keys of the grid: three controls and fifteen characters. *)
Lemma button_cases now1 now2 (value : jsstring) :
  isButton (Press now1 now2 value) = true ->
  value = js "C" \/ value = js "DEL" \/ value = js "="
  \/ exists c : codeunit,
       value = [c] /\ c <> 67%N /\ c <> 61%N
       /\ (isDigit c = true \/ isOperator c = true \/ c = 46%N).
Proof.
  unfold isButton. intro H. apply existsb_exists in H as [b [Hin Hb]].
  apply jsstring_eqb_eq in Hb. subst b.
  simpl in Hin.
  repeat (destruct Hin as [Hin|Hin];
          [subst value;
           first [ now left | now (right; left) | now (right; right; left)
                 | right; right; right; eexists; split; [reflexivity|];
                   split; [discriminate|]; split; [discriminate|];
                   first [ now left | now (right; left) | now (right; right) ] ]
          |]).
  contradiction.
Qed.

Lemma edit_digit (flag : bool) (res prev : jsstring) (c : codeunit) :
  isDigit c = true ->
  editExpression flag res [c] prev
  = if flag then [c]
    else if jsstring_eqb prev (js "0") then [c] else prev ++ [c].
Proof.
  intro Hc.
  assert (H46 : N.eqb c 46 = false).
  { apply isDigit_range in Hc. apply N.eqb_neq. lia. }
  unfold editExpression, hasDigit, hasOperator. simpl existsb. simpl jsstring_eqb.
  rewrite Hc, (digit_not_operator c Hc), H46. simpl.
  rewrite !andb_true_r, !andb_false_r.
  destruct flag; [reflexivity|]. simpl.
  destruct (jsstring_eqb prev (js "0")); reflexivity.
Qed.

Lemma edit_operator (flag : bool) (res prev : jsstring) (c : codeunit) :
  isOperator c = true ->
  editExpression flag res [c] prev
  = if flag then res ++ [c]
    else if endsWithOperator prev then dropLast prev ++ [c] else prev ++ [c].
Proof.
  intro Hc.
  assert (H46 : N.eqb c 46 = false).
  { apply isOperator_cases in Hc. apply N.eqb_neq. lia. }
  unfold editExpression, hasDigit, hasOperator. simpl existsb. simpl jsstring_eqb.
  rewrite Hc, (operator_not_digit c Hc), H46. simpl.
  rewrite !andb_true_r, !andb_false_r.
  destruct flag; [reflexivity|]. simpl.
  destruct (endsWithOperator prev); reflexivity.
Qed.

Lemma edit_dot (flag : bool) (res prev : jsstring) :
  editExpression flag res [46%N] prev
  = if includesDot (operandSinceLastOperator prev) then prev else prev ++ [46%N].
Proof.
  unfold editExpression.
  change (hasDigit [46%N]) with false.
  change (hasOperator [46%N]) with false.
  change (jsstring_eqb [46%N] (js ".")) with true.
  rewrite !andb_false_r. cbv iota.
  unfold split. now rewrite (last_splitFrom prev [] eq_refl).
Qed.















Lemma run_cons (s : CalcState) (ev : event) (evs : list event) :
  run s (ev :: evs) = run (step s ev) evs.
Proof. reflexivity. Qed.



(** The buffers the keys [5 / 0 = +] and [3 - 5 = +] lead to, whatever
    the engine's exponentiation is. *)
Lemma carried_results :
  expression (run initial (keysOf ["5"; "/"; "0"; "="; "+"]%string)) = js "Error+"
  /\ expression (run initial (keysOf ["3"; "-"; "5"; "="; "+"]%string)) = js "-2+".
Proof. split; vm_compute; reflexivity. Qed.

(* ================================================================== *)
(** ** The history ledger *)

Lemma firstn_cons_firstn {A} (x : A) (l : list A) :
  firstn 10 (x :: firstn 10 l) = firstn 10 (x :: l).
Proof.
  change (firstn 10 (x :: firstn 10 l)) with (x :: firstn 9 (firstn 10 l)).
  rewrite firstn_firstn. reflexivity.
Qed.

Lemma step_ledger (s : CalcState) (ev : event) (log : list HistoryItem) :
  ledgerAgrees s log -> ledgerAgrees (step s ev) (ledgerStep s ev log).
Proof.
  intros [Hh Hs]. destruct ev as [now1 now2 value|].
  - unfold step, handleButtonPress, handleButtonPressWith, ledgerStep.
    destruct (jsstring_eqb value (js "C")) eqn:EC.
    { split; reflexivity. }
    destruct (jsstring_eqb value (js "DEL")) eqn:ED.
    { apply jsstring_eqb_eq in ED. subst value. split; assumption. }
    destruct (jsstring_eqb value (js "=")) eqn:EE.
    + simpl andb. destruct (checkSecretCode (expression s)).
      { split; assumption. }
      destruct (negb (jsstring_eqb (evaluateExpression (expression s)) ERROR)).
      * simpl. split; [|reflexivity]. rewrite Hh. apply firstn_cons_firstn.
      * split; assumption.
    + split; assumption.
  - unfold ledgerAgrees, step, mount, ledgerStep. cbn [history storage].
    rewrite Hs. split; [exact Hh|reflexivity].
Qed.

Lemma run_ledger (evs : list event) :
  forall (s : CalcState) (log : list HistoryItem),
    ledgerAgrees s log -> ledgerAgrees (run s evs) (ledger s evs log).
Proof.
  induction evs as [|ev evs IH]; intros s log H; [exact H|].
  rewrite run_cons. simpl ledger. apply IH. now apply step_ledger.
Qed.

(** C6. From a fresh installation the ledger always holds the ten most
    recent successful evaluations since the last clear, newest first (at
    most ten entries, the persisted copy the same); a successful
    evaluation puts one new entry in front and, on a full ledger, drops
    the oldest; after the eleven evaluations [1 =], [2 =], ..., [11 =] the
    ledger holds those of 11 down to 2. *)
Theorem history_is_ten_most_recent :
  (forall evs : list event,
      let s := run initial evs in
      (List.length (history s) <= 10)%nat
      /\ history s = firstn 10 (ledger initial evs [])
      /\ loadHistory (storage s) = history s)
  /\ (forall now1 now2 s,
        checkSecretCode (expression s) = false ->
        jsstring_eqb (evaluateExpression (expression s)) ERROR = false ->
        let item := mkItem (numberToString (num_ofZ now1)) (expression s)
                           (evaluateExpression (expression s)) now2 in
        let s' := handleButtonPress now1 now2 (js "=") s in
        history s' = firstn 10 (item :: history s)
        /\ ((List.length (history s) < 10)%nat -> history s' = item :: history s)
        /\ (List.length (history s) = 10%nat ->
            history s' = item :: removelast (history s)))
  /\ map (fun h => (item_expression h, item_result h))
         (history (run initial
            (keysOf ["1"; "="; "2"; "="; "3"; "="; "4"; "="; "5"; "="; "6"; "=";
                     "7"; "="; "8"; "="; "9"; "="; "1"; "0"; "=";
                     "1"; "1"; "="]%string)))
     = map (fun k => (js k, js k))
           ["11"; "10"; "9"; "8"; "7"; "6"; "5"; "4"; "3"; "2"]%string.
Proof.
  split; [|split].
  - intros evs s. subst s.
    destruct (run_ledger evs initial [] (conj eq_refl eq_refl)) as [H1 H2].
    split; [|split; assumption].
    rewrite H1. apply firstn_le_length.
  - intros now1 now2 s Hsec Hok item s'. subst s' item.
    unfold handleButtonPress. rewrite press_equals by assumption.
    rewrite Hok. cbn [negb history].
    split; [reflexivity|]. split.
    + intro Hl. rewrite firstn_cons.
      f_equal. apply firstn_all2. lia.
    + intro Hl. rewrite firstn_cons.
      f_equal. destruct (history s) as [|h0 hs] using rev_ind; [discriminate|].
      rewrite length_app in Hl. simpl in Hl.
      rewrite removelast_last, firstn_app.
      replace (9 - List.length hs)%nat with 0%nat by lia.
      rewrite firstn_all2 by lia. simpl. now rewrite app_nil_r.
  - vm_compute. reflexivity.
Qed.

(* ================================================================== *)
(** ** Operator precedence *)

Lemma lexFrom_cons (l : lexer) (c : codeunit) (r : jsstring) :
  lexFrom l (c :: r)
  = match lexChar l c with
    | None => None
    | Some (ts, l') =>
        match lexFrom l' r with
        | None => None
        | Some more => Some (ts ++ more)
        end
    end.
Proof. reflexivity. Qed.

Lemma digit_not_space (d : codeunit) :
  isDigit d = true -> isLineTerminator d = false /\ isWhiteSpace d = false.
Proof.
  intro H. apply isDigit_range in H.
  unfold isLineTerminator, isWhiteSpace.
  repeat match goal with
         | |- context [N.eqb d ?k] =>
             replace (N.eqb d k) with false by (symmetry; apply N.eqb_neq; lia)
         end.
  replace (N.leb 8192 d) with false by (symmetry; apply N.leb_gt; lia).
  split; reflexivity.
Qed.

Lemma startChar_digit (operand nl : bool) (d : codeunit) :
  isDigit d = true ->
  startChar operand nl d = Some ([], mkLexer (LInt [d]) operand nl).
Proof.
  intro H. unfold startChar.
  destruct (digit_not_space d H) as [H1 H2]. now rewrite H1, H2, H.
Qed.

(** A run of digits extends the integer being read. *)
Lemma lex_digits (ds : jsstring) :
  forall (acc : jsstring) (operand nl : bool) (tail : jsstring),
    forallb isDigit ds = true ->
    lexFrom (mkLexer (LInt acc) operand nl) (ds ++ tail)
    = lexFrom (mkLexer (LInt (acc ++ ds)) operand nl) tail.
Proof.
  induction ds as [|d ds IH]; intros acc operand nl tail H.
  - now rewrite app_nil_r.
  - simpl in H. apply andb_true_iff in H as [Hd Hds].
    simpl app. rewrite lexFrom_cons. unfold lexChar. simpl lx_state.
    rewrite Hd. cbn [lx_operand lx_nl].
    rewrite (IH (acc ++ [d]) operand nl tail Hds), <- app_assoc. simpl app.
    destruct (lexFrom _ tail); reflexivity.
Qed.

(** An operator character ends the integer and opens the operator. *)
Lemma lexChar_operator (acc : jsstring) (operand nl : bool) (o : arith) :
  lexChar (mkLexer (LInt acc) operand nl) (arithChar o)
  = Some ([(nl, TNum (integerLiteral acc))], mkLexer (operatorState o) true false).
Proof. destruct o; reflexivity. Qed.

(** A digit after the operator makes it a binary operator token. *)
Lemma lexChar_after_operator (o : arith) (d : codeunit) :
  isDigit d = true ->
  lexChar (mkLexer (operatorState o) true false) d
  = Some ([(false, TOp (arithOp o))], mkLexer (LInt [d]) false false).
Proof.
  intro H. pose proof (proj1 (isDigit_range d) H) as Hr.
  assert (E : forall k : N, (k < 48)%N -> N.eqb d k = false)
    by (intros k Hk; apply N.eqb_neq; lia).
  unfold lexChar, emitThen.
  destruct o; cbn [lx_state lx_operand lx_nl operatorState arithOp];
    rewrite ?(E 43%N), ?(E 45%N), ?(E 42%N), ?(E 47%N) by lia;
    now rewrite (startChar_digit false false d H).
Qed.

Lemma operand_text (n : jsstring) :
  isOperandText n = true ->
  exists d n', n = d :: n' /\ isDigit d = true /\ forallb isDigit n' = true.
Proof.
  destruct n as [|d n']; [discriminate|]. simpl.
  rewrite andb_true_iff. intros [H1 H2]. now exists d, n'.
Qed.

Lemma lex_rest (rest : list (arith * jsstring)) :
  forall acc : jsstring,
    forallb (fun p => isOperandText (snd p)) rest = true ->
    lexFrom (mkLexer (LInt acc) false false)
            (flat_map (fun p => arithChar (fst p) :: snd p) rest)
    = Some ((false, TNum (integerLiteral acc)) :: flat_map pieceTokens rest).
Proof.
  induction rest as [|[o n] rest IH]; intros acc H.
  - reflexivity.
  - simpl in H. apply andb_true_iff in H as [Hn Hrest].
    destruct (operand_text n Hn) as (d & n' & -> & Hd & Hn').
    cbn [flat_map fst snd]. simpl app.
    rewrite lexFrom_cons, lexChar_operator.
    rewrite lexFrom_cons, (lexChar_after_operator o d Hd).
    rewrite (lex_digits n' [d] false false _ Hn').
    rewrite (IH ([d] ++ n') Hrest). reflexivity.
Qed.

Lemma tokenize_render (n0 : jsstring) (rest : list (arith * jsstring)) :
  wellFormed n0 rest = true ->
  tokenize (render n0 rest)
  = Some ((false, TNum (integerLiteral n0)) :: flat_map pieceTokens rest).
Proof.
  unfold wellFormed. rewrite andb_true_iff. intros [H0 Hrest].
  destruct (operand_text n0 H0) as (d & n' & -> & Hd & Hn').
  unfold tokenize, render. simpl app.
  rewrite lexFrom_cons. unfold lexChar. cbn [lx_state lx_operand lx_nl].
  rewrite (startChar_digit false false d Hd).
  rewrite (lex_digits n' [d] false false _ Hn').
  rewrite (lex_rest rest ([d] ++ n') Hrest). reflexivity.
Qed.

Lemma finish_afterOperand (sum prod : option (expr * bool)) (cur : expr) :
  endStatement None cur (prodFrame prod ++ sumFrame sum)
  = Some (Some (Some (sumExpr sum (termExpr prod cur)))).
Proof.
  destruct sum as [[a [|]]|], prod as [[t [|]]|]; reflexivity.
Qed.

Lemma parse_piece (sum prod : option (expr * bool)) (cur : expr)
  (o : arith) (n : jsstring) (ts : list ltoken) :
  parseTokens (afterOperand sum prod cur) (pieceTokens (o, n) ++ ts)
  = parseTokens
      (match o with
       | Times => afterOperand sum (Some (termExpr prod cur, false))
       | Divide => afterOperand sum (Some (termExpr prod cur, true))
       | Plus => afterOperand (Some (sumExpr sum (termExpr prod cur), false)) None
       | Minus => afterOperand (Some (sumExpr sum (termExpr prod cur), true)) None
       end (ENum (integerLiteral n)))
      ts.
Proof.
  destruct sum as [[a [|]]|], prod as [[t [|]]|], o; reflexivity.
Qed.

Lemma parse_rest (rest : list (arith * jsstring)) :
  forall (sum prod : option (expr * bool)) (cur : expr),
  exists sum' prod' cur',
    parseTokens (afterOperand sum prod cur) (flat_map pieceTokens rest)
    = Some (afterOperand sum' prod' cur')
    /\ sumExpr sum' (termExpr prod' cur') = astRun sum prod cur rest.
Proof.
  induction rest as [|[o n] rest IH]; intros sum prod cur.
  - exists sum, prod, cur. split; reflexivity.
  - cbn [flat_map]. rewrite parse_piece. cbn [astRun].
    destruct o; apply IH.
Qed.

Lemma parseBody_render (n0 : jsstring) (rest : list (arith * jsstring)) :
  parseBody ((false, TNum (integerLiteral n0)) :: flat_map pieceTokens rest)
  = Some (Some (astRun None None (ENum (integerLiteral n0)) rest)).
Proof.
  unfold parseBody.
  change (parseTokens (mkP None [] Operand)
            ((false, TNum (integerLiteral n0)) :: flat_map pieceTokens rest))
    with (parseTokens (afterOperand None None (ENum (integerLiteral n0)))
            (flat_map pieceTokens rest)).
  destruct (parse_rest rest None None (ENum (integerLiteral n0)))
    as (sum' & prod' & cur' & -> & <-).
  cbn [ps_mode ps_return ps_stack afterOperand].
  now rewrite finish_afterOperand.
Qed.

Lemma eval_sumExpr (sum : option (expr * bool)) (sv : option (Number * bool))
  (t : expr) (tv : Number) :
  sumValue sum sv -> evalExpr t = Some (VNumber tv) ->
  evalExpr (sumExpr sum t) = Some (VNumber (addTerm sv tv)).
Proof.
  destruct sum as [[a sg]|], sv as [[av sg']|]; simpl; try contradiction.
  - intros [<- Ha] Ht. rewrite Ha, Ht. destruct sg; reflexivity.
  - intros _ Ht. exact Ht.
Qed.

Lemma eval_astRun (rest : list (arith * jsstring)) :
  forall (sum prod : option (expr * bool)) (cur : expr)
         (sv : option (Number * bool)) (tv : Number),
    sumValue sum sv ->
    evalExpr (termExpr prod cur) = Some (VNumber tv) ->
    evalExpr (astRun sum prod cur rest)
    = Some (VNumber (twoLevel sv tv
                       (map (fun p => (fst p, integerLiteral (snd p))) rest))).
Proof.
  induction rest as [|[o n] rest IH]; intros sum prod cur sv tv Hs Ht.
  - simpl. now apply eval_sumExpr.
  - cbn [astRun map fst snd twoLevel]. destruct o.
    + apply IH; [|reflexivity].
      simpl. split; [reflexivity|]. now apply eval_sumExpr.
    + apply IH; [|reflexivity].
      simpl. split; [reflexivity|]. now apply eval_sumExpr.
    + apply IH; [exact Hs|]. simpl. simpl in Ht. now rewrite Ht.
    + apply IH; [exact Hs|]. simpl. simpl in Ht. now rewrite Ht.
Qed.

Lemma runFunction_render (n0 : jsstring) (rest : list (arith * jsstring)) :
  wellFormed n0 rest = true ->
  runFunction (render n0 rest) = Some (VNumber (precedenceValue n0 rest)).
Proof.
  intro H. unfold runFunction.
  rewrite (tokenize_render n0 rest H), parseBody_render.
  apply eval_astRun; [exact I|reflexivity].
Qed.

Lemma plain_text_passes (s : jsstring) :
  forallb (fun c => isDigit c || isOperator c) s = true ->
  normalized s = s /\ forallb allowedChar s = true.
Proof.
  unfold normalized, replaceAll.
  induction s as [|c s IH]; simpl; [split; reflexivity|].
  rewrite andb_true_iff. intros [Hc Hs]. destruct (IH Hs) as [I1 I2].
  assert (Hne : N.eqb c 215 = false /\ N.eqb c 247 = false).
  { apply orb_true_iff in Hc as [Hc|Hc].
    - apply isDigit_range in Hc. split; apply N.eqb_neq; lia.
    - apply isOperator_cases in Hc. split; apply N.eqb_neq; lia. }
  destruct Hne as [H1 H2]. rewrite H1, H2, I1, I2.
  split; [reflexivity|].
  unfold allowedChar. apply orb_true_iff in Hc as [Hc|Hc]; rewrite Hc;
    now rewrite ?orb_true_r.
Qed.

Lemma render_plain (n0 : jsstring) (rest : list (arith * jsstring)) :
  wellFormed n0 rest = true ->
  nonEmpty (render n0 rest) = true
  /\ forallb (fun c => isDigit c || isOperator c) (render n0 rest) = true.
Proof.
  unfold wellFormed, render. rewrite andb_true_iff. intros [H0 Hrest].
  assert (Hd : forall n, isOperandText n = true ->
                 forallb (fun c => isDigit c || isOperator c) n = true).
  { intros n Hn. destruct (operand_text n Hn) as (d & n' & -> & Hd & Hn').
    simpl. rewrite Hd. simpl.
    clear - Hn'. induction n' as [|c n' IH]; simpl in *; [reflexivity|].
    apply andb_true_iff in Hn' as [Hc Hn']. now rewrite Hc, IH. }
  split.
  - destruct (operand_text n0 H0) as (d & n' & -> & _). reflexivity.
  - rewrite forallb_app, (Hd n0 H0). simpl.
    induction rest as [|[o n] rest IH]; simpl in *; [reflexivity|].
    apply andb_true_iff in Hrest as [Hn Hr].
    rewrite forallb_app, (Hd n Hn), (IH Hr).
    destruct o; reflexivity.
Qed.

(** An operand with a leading zero and octal digits only is read in base
    eight, as the engine reads the literal: [1+010] is nine. *)
Lemma leading_zero_reads_octal : evaluateExpression (js "1+010") = js "9".
Proof. vm_compute. reflexivity. Qed.

(** C3. On every expression made of digit operands and the operators
    [+ - * /], [evaluateExpression] shows the value that two-level
    precedence gives: products and quotients first, each level from left
    to right, every operand with its value as a literal (the decimal one
    unless it is a leading zero followed by octal digits).  So ["2+3*4"]
    gives ["14"] and ["2*3+4"] gives ["10"], and ["8-3-2"] and ["8/4/2"]
    are read from the left. *)
Theorem precedence_left_to_right :
  (forall (n0 : jsstring) (rest : list (arith * jsstring)),
      wellFormed n0 rest = true ->
      evaluateExpression (render n0 rest) = display (precedenceValue n0 rest))
  /\ (forall ds : jsstring,
        isLegacyOctal ds = false ->
        integerLiteral ds = num_ofDecimal (digitsValue 10 ds) 0)
  /\ evaluateExpression (js "2+3*4") = js "14"
  /\ evaluateExpression (js "2*3+4") = js "10"
  /\ evaluateExpression (js "8-3-2") = js "3"
  /\ evaluateExpression (js "8/4/2") = js "1".
Proof.
  split.
  - intros n0 rest H.
    destruct (render_plain n0 rest H) as [Hn Hp].
    destruct (plain_text_passes _ Hp) as [Hnorm Hall].
    unfold evaluateExpression. fold (normalized (render n0 rest)).
    rewrite Hnorm.
    assert (Hw : whitelisted (render n0 rest) = true).
    { unfold whitelisted. destruct (render n0 rest); [discriminate|exact Hall]. }
    rewrite Hw, (runFunction_render n0 rest H). cbn [negb ToNumber].
    unfold display. destruct (num_isFinite (precedenceValue n0 rest)); reflexivity.
  - split.
    + intros ds H. unfold integerLiteral. now rewrite H.
    + repeat split; vm_compute; reflexivity.
Qed.

(* ================================================================== *)
(** ** The notes in storage *)

Lemma find_findIndex {A : Type} (p : A -> bool) (l : list A) (old : A) :
  find p l = Some old ->
  exists i, findIndex p l = Some i /\ nth_error l i = Some old.
Proof.
  induction l as [|x l IH]; simpl; [discriminate|].
  destruct (p x).
  - intro H. injection H as <-. exists O. split; reflexivity.
  - intro H. destruct (IH H) as (i & Hi & Hn).
    exists (S i). rewrite Hi. split; [reflexivity|exact Hn].
Qed.

Lemma findIndex_none {A : Type} (p : A -> bool) (l : list A) :
  find p l = None -> findIndex p l = None.
Proof.
  induction l as [|x l IH]; simpl; [reflexivity|].
  destruct (p x); [discriminate|]. intro H. now rewrite (IH H).
Qed.

Lemma setAt_found {A : Type} (p : A -> bool) (l : list A) (i : nat) (x : A) :
  findIndex p l = Some i ->
  nth_error (setAt i x l) i = Some x
  /\ List.length (setAt i x l) = List.length l
  /\ (p x = true -> find p (setAt i x l) = Some x).
Proof.
  revert i; induction l as [|y l IH]; intros i; simpl; [discriminate|].
  destruct (p y) eqn:Hy.
  - intro H. injection H as <-. simpl. repeat split; try reflexivity.
    intro Hx. now rewrite Hx.
  - destruct (findIndex p l) as [j|] eqn:Hj; simpl; [|discriminate].
    intro H. injection H as <-.
    destruct (IH j eq_refl) as (I1 & I2 & I3).
    simpl. rewrite Hy, I2. repeat split; try assumption; reflexivity.
Qed.

(** Replacing an element by one that a test [q] cannot tell from it does
    not change what [q] finds, nor what a function [f] equal on both maps
    the list to. *)
Lemma setAt_same {A B : Type} (q : A -> bool) (f : A -> B)
  (l : list A) (i : nat) (old x : A) :
  nth_error l i = Some old ->
  (q x = q old -> q old = false -> find q (setAt i x l) = find q l)
  /\ (f x = f old -> map f (setAt i x l) = map f l).
Proof.
  revert i; induction l as [|y l IH]; intros [|i]; simpl; try discriminate.
  - intro H. injection H as ->. split.
    + intros Hq Ho. now rewrite Hq, Ho.
    + intro Hf. now rewrite Hf.
  - intro H. destruct (IH i H) as [I1 I2]. split.
    + intros Hq Ho. now rewrite (I1 Hq Ho).
    + intro Hf. now rewrite (I2 Hf).
Qed.

Lemma find_none_forallb {A : Type} (p : A -> bool) (l : list A) :
  find p l = None <-> forallb (fun x => negb (p x)) l = true.
Proof.
  induction l as [|x l IH]; simpl; [tauto|].
  destruct (p x); simpl; [split; discriminate|exact IH].
Qed.

Lemma filter_length_all {A : Type} (f : A -> bool) (l : list A) :
  Nat.eqb (List.length (filter f l)) (List.length l) = forallb f l.
Proof.
  induction l as [|x l IH]; simpl; [reflexivity|].
  destruct (f x); simpl; [exact IH|].
  apply Nat.eqb_neq. pose proof (filter_length_le f l). lia.
Qed.

Lemma filter_all {A : Type} (f : A -> bool) (l : list A) :
  forallb f l = true -> filter f l = l.
Proof.
  induction l as [|x l IH]; simpl; [reflexivity|].
  rewrite andb_true_iff. intros [Hx Hl]. now rewrite Hx, (IH Hl).
Qed.

Lemma find_filter_out {A : Type} (p : A -> bool) (l : list A) :
  find p (filter (fun x => negb (p x)) l) = None.
Proof.
  induction l as [|x l IH]; simpl; [reflexivity|].
  destruct (p x) eqn:Hx; simpl; [exact IH|]. now rewrite Hx.
Qed.

Lemma find_filter_other {A : Type} (p q : A -> bool) (l : list A) :
  (forall x, q x = true -> p x = false) ->
  find q (filter (fun x => negb (p x)) l) = find q l.
Proof.
  intro H. induction l as [|x l IH]; simpl; [reflexivity|].
  destruct (p x) eqn:Hp; simpl.
  - destruct (q x) eqn:Hq; [|exact IH]. rewrite (H x Hq) in Hp. discriminate.
  - now rewrite IH.
Qed.

Lemma same_id_other (a b c : jsstring) :
  b <> c -> jsstring_eqb a c = true -> jsstring_eqb a b = false.
Proof.
  intros Hne H. apply jsstring_eqb_eq in H. subst a.
  apply jsstring_eqb_neq. congruence.
Qed.

(** X1. A note just added is in front of the stored list and is what its
    id looks up; every other id looks up what it did before, and the
    history key is untouched. *)
Theorem addNote_then_getNoteById :
  forall now1 suffix now2 content st,
    let newNote := fst (addNote now1 suffix now2 content st) in
    let st' := snd (addNote now1 suffix now2 content st) in
    loadNotes st' = newNote :: loadNotes st
    /\ note_content newNote = content
    /\ getNoteById (note_id newNote) st' = Some newNote
    /\ (forall id, id <> note_id newNote -> getNoteById id st' = getNoteById id st)
    /\ historyKey st' = historyKey st.
Proof.
  intros. subst newNote st'. unfold addNote, getNoteById. simpl.
  repeat split; try reflexivity.
  - now rewrite jsstring_eqb_refl.
  - intros id Hne.
    replace (jsstring_eqb (numberToString (num_ofZ now1) ++ suffix) id) with false;
      [reflexivity|].
    symmetry. apply jsstring_eqb_neq. congruence.
Qed.

(** [updateNote] on an id no note has returns null and writes nothing. *)
Lemma updateNote_not_found :
  forall now id content st,
    getNoteById id st = None ->
    updateNote now id content st = (None, st).
Proof.
  intros now id content st H. unfold updateNote, getNoteById in *.
  now rewrite (findIndex_none _ _ H).
Qed.

(** X2. [updateNote] on an id some note has rewrites the first such note
    in place: it returns the note with the new content and time and the
    old id, which the id then looks up; the list keeps its length and the
    order of its ids (the note does not move to the front), and other ids
    look up what they did. *)
Theorem updateNote_present :
  forall now id content st old,
    getNoteById id st = Some old ->
    let updated := mkNote (note_id old) content now in
    let st' := snd (updateNote now id content st) in
    fst (updateNote now id content st) = Some updated
    /\ note_id old = id
    /\ getNoteById id st' = Some updated
    /\ map note_id (loadNotes st') = map note_id (loadNotes st)
    /\ (forall id', id' <> id -> getNoteById id' st' = getNoteById id' st)
    /\ historyKey st' = historyKey st.
Proof.
  intros now id content st old H updated st'. subst st'.
  unfold getNoteById in H.
  assert (Hid : note_id old = id).
  { apply find_some in H as [_ H]. now apply jsstring_eqb_eq in H. }
  destruct (find_findIndex _ _ _ H) as (i & Hi & Hn).
  unfold updateNote. rewrite Hi, Hn. fold updated.
  destruct (setAt_found _ (loadNotes st) i updated Hi) as (S1 & S2 & S3).
  cbn [fst snd]. unfold getNoteById, saveNotes, loadNotes at 2 4 6. cbn [notesKey historyKey].
  split; [exact S1|]. split; [exact Hid|]. split.
  { apply S3. subst updated. simpl. rewrite Hid. apply jsstring_eqb_refl. }
  split.
  { apply (setAt_same (fun _ => true) note_id _ _ _ _ Hn). reflexivity. }
  split; [|reflexivity].
  intros id' Hne.
  apply (setAt_same (fun note => jsstring_eqb (note_id note) id') note_id _ _ _ _ Hn).
  - reflexivity.
  - rewrite Hid. apply jsstring_eqb_neq. congruence.
Qed.

(** X3. [deleteNote] removes every note with the id and keeps the others
    in order; it returns whether the id was there, and writes nothing
    when it was not; afterwards the id looks up nothing and other ids look
    up what they did. *)
Theorem deleteNote_removes_all :
  forall id st,
    let st' := snd (deleteNote id st) in
    fst (deleteNote id st)
    = match getNoteById id st with Some _ => true | None => false end
    /\ loadNotes st'
       = filter (fun note => negb (jsstring_eqb (note_id note) id)) (loadNotes st)
    /\ getNoteById id st' = None
    /\ (forall id', id' <> id -> getNoteById id' st' = getNoteById id' st)
    /\ (getNoteById id st = None -> st' = st)
    /\ historyKey st' = historyKey st.
Proof.
  intros id st st'. subst st'. unfold deleteNote, getNoteById.
  rewrite filter_length_all.
  pose proof (find_none_forallb (fun note => jsstring_eqb (note_id note) id)
                (loadNotes st)) as Hiff.
  cbv beta in Hiff.
  destruct (forallb (fun note => negb (jsstring_eqb (note_id note) id))
              (loadNotes st)) eqn:Hall.
  - pose proof (proj2 Hiff eq_refl) as Hnone.
    cbn [fst snd]. rewrite Hnone, (filter_all _ _ Hall).
    repeat split; try reflexivity; assumption.
  - cbn [fst snd]. unfold saveNotes, loadNotes at 2 3 5. cbn [notesKey historyKey].
    split.
    { destruct (find _ (loadNotes st)) eqn:Hf; [reflexivity|].
      pose proof (proj1 Hiff eq_refl) as F. discriminate. }
    split; [reflexivity|]. split.
    { apply (find_filter_out (fun note => jsstring_eqb (note_id note) id)). }
    split.
    { intros id' Hne.
      apply (find_filter_other (fun note => jsstring_eqb (note_id note) id)
                               (fun note => jsstring_eqb (note_id note) id')).
      intros x Hx. apply (same_id_other _ id id'); [congruence|exact Hx]. }
    split; [|reflexivity].
    intro Hf. apply Hiff in Hf. discriminate.
Qed.

Lemma deleteNote_absent (id : jsstring) (st : AsyncStore) :
  getNoteById id st = None -> deleteNote id st = (false, st).
Proof.
  intro H. unfold deleteNote, getNoteById in *. rewrite filter_length_all.
  apply find_none_forallb in H. cbv beta in H. now rewrite H.
Qed.

Lemma deleteNote_gone (id : jsstring) (st : AsyncStore) :
  getNoteById id (snd (deleteNote id st)) = None.
Proof.
  unfold deleteNote, getNoteById. rewrite filter_length_all.
  destruct (forallb (fun note => negb (jsstring_eqb (note_id note) id))
              (loadNotes st)) eqn:Hall; cbn [snd].
  - now apply find_none_forallb.
  - unfold saveNotes, loadNotes at 1. cbn [notesKey].
    apply (find_filter_out (fun note => jsstring_eqb (note_id note) id)).
Qed.

(** X4. Deleting the same id again finds nothing to delete and leaves
    the storage as the first deletion left it. *)
Theorem deleteNote_twice :
  forall id st,
    deleteNote id (snd (deleteNote id st)) = (false, snd (deleteNote id st)).
Proof.
  intros id st. apply deleteNote_absent, deleteNote_gone.
Qed.

(** A key that is absent loads as an empty list, so after
    [clearAllData] there are no notes and no history, no id looks up a
    note, an update and a deletion find nothing, and the next note added
    is the only one. *)
Lemma clearAllData_empties_both :
  forall st,
    let st0 := clearAllData st in
    loadNotes st0 = []
    /\ loadHistory (historyKey st0) = []
    /\ (forall id, getNoteById id st0 = None)
    /\ (forall now id content, updateNote now id content st0 = (None, st0))
    /\ (forall id, deleteNote id st0 = (false, st0))
    /\ (forall now1 suffix now2 content,
          loadNotes (snd (addNote now1 suffix now2 content st0))
          = [fst (addNote now1 suffix now2 content st0)]).
Proof. intros; repeat split. Qed.

(* ================================================================== *)
(** ** Saving and cancelling a note *)

Lemma dropSpaces_blank (l : jsstring) :
  dropSpaces l = [] <-> forallb isSpace l = true.
Proof.
  induction l as [|c l IH]; simpl; [tauto|].
  destruct (isSpace c); simpl; [exact IH|]. split; discriminate.
Qed.

Lemma dropSpaces_split (l : jsstring) :
  exists sp, l = sp ++ dropSpaces l /\ forallb isSpace sp = true.
Proof.
  induction l as [|c l IH]; [now exists []|].
  simpl. destruct (isSpace c) eqn:Hc.
  - destruct IH as (sp & Hl & Hsp). exists (c :: sp). simpl.
    rewrite Hc, Hsp. split; [now f_equal|reflexivity].
  - now exists [].
Qed.

Lemma dropSpaces_head (l : jsstring) : noLeadingSpace (dropSpaces l) = true.
Proof.
  induction l as [|c l IH]; simpl; [reflexivity|].
  destruct (isSpace c) eqn:Hc; [exact IH|]. simpl. now rewrite Hc.
Qed.

Lemma dropSpaces_fixed (l : jsstring) :
  noLeadingSpace l = true -> dropSpaces l = l.
Proof.
  destruct l as [|c l]; simpl; [reflexivity|].
  intro H. apply negb_true_iff in H. now rewrite H.
Qed.

Lemma trim_blank (s : jsstring) : trim s = [] <-> forallb isSpace s = true.
Proof.
  unfold trim. rewrite <- dropSpaces_blank. split.
  - intro H. apply (f_equal (@rev _)) in H. rewrite rev_involutive in H. simpl in H.
    apply dropSpaces_blank in H. rewrite forallb_rev in H.
    pose proof (dropSpaces_head s) as Hh.
    destruct (dropSpaces s) as [|c u]; [reflexivity|].
    simpl in *. apply andb_true_iff in H as [Hc _]. now rewrite Hc in Hh.
  - intro H. now rewrite H.
Qed.

Lemma trim_no_leading_space (s : jsstring) : noLeadingSpace (trim s) = true.
Proof.
  unfold trim. pose proof (dropSpaces_head s) as Hh.
  set (u := dropSpaces s) in *.
  destruct (dropSpaces_split (rev u)) as (sp & Hu & Hsp).
  set (w := dropSpaces (rev u)) in *.
  apply (f_equal (@rev _)) in Hu. rewrite rev_involutive, rev_app_distr in Hu.
  destruct (rev w) as [|c t] eqn:Hw; [reflexivity|].
  rewrite Hu in Hh. exact Hh.
Qed.

Lemma trim_idempotent (s : jsstring) : trim (trim s) = trim s.
Proof.
  unfold trim at 1. rewrite (dropSpaces_fixed _ (trim_no_leading_space s)).
  unfold trim. rewrite rev_involutive.
  rewrite (dropSpaces_fixed _ (dropSpaces_head _)). reflexivity.
Qed.

Lemma trim_tidy (s : jsstring) : forallb isSpace s = false -> tidy (trim s) = true.
Proof.
  intro H. unfold tidy. rewrite trim_idempotent, jsstring_eqb_refl, andb_true_r.
  destruct (trim s) eqn:E; [|reflexivity].
  apply trim_blank in E. congruence.
Qed.

Lemma trim_length_blank (s : jsstring) :
  Nat.eqb (List.length (trim s)) 0 = forallb isSpace s.
Proof.
  destruct (forallb isSpace s) eqn:H.
  - apply trim_blank in H. now rewrite H.
  - destruct (trim s) eqn:E; [|reflexivity]. apply trim_blank in E. congruence.
Qed.

(** X5. Save on a text that is empty or all white space shows the
    "Empty Note" alert and writes nothing, in both modes; on any other
    text it closes the screen. *)
Theorem handleSave_rejects_blank :
  forall now1 suffix now2 noteId content st,
    fst (handleSave now1 suffix now2 noteId content st)
    = (if forallb isSpace content then EmptyNoteAlert else WentBack)
    /\ (forallb isSpace content = true ->
        snd (handleSave now1 suffix now2 noteId content st) = st).
Proof.
  intros. unfold handleSave. rewrite trim_length_blank.
  destruct (forallb isSpace content).
  - split; [reflexivity|]. intros _. reflexivity.
  - split; [|discriminate].
    destruct noteId as [id|]; [destruct (isEditMode (Some id))|]; reflexivity.
Qed.

(** X6. Saving a new note with some visible text stores it in front of
    the others with the text trimmed: the stored content is not empty and
    has no white space at either end. *)
Theorem handleSave_new_stores_trimmed :
  forall now1 suffix now2 content st,
    forallb isSpace content = false ->
    loadNotes (snd (handleSave now1 suffix now2 None content st))
    = mkNote (numberToString (num_ofZ now1) ++ suffix) (trim content) now2
      :: loadNotes st
    /\ tidy (trim content) = true
    /\ noLeadingSpace (trim content) = true
    /\ noLeadingSpace (rev (trim content)) = true.
Proof.
  intros now1 suffix now2 content st H. unfold handleSave.
  rewrite trim_length_blank, H. split; [reflexivity|].
  split; [now apply trim_tidy|]. split; [apply trim_no_leading_space|].
  unfold trim. rewrite rev_involutive. apply dropSpaces_head.
Qed.

Lemma forallb_setAt {A : Type} (f : A -> bool) (l : list A) (i : nat) (x : A) :
  forallb f l = true -> f x = true -> forallb f (setAt i x l) = true.
Proof.
  revert i; induction l as [|y l IH]; intros [|i]; simpl; auto.
  - rewrite andb_true_iff. intros [_ Hl] Hx. now rewrite Hx, Hl.
  - rewrite andb_true_iff. intros [Hy Hl] Hx. now rewrite Hy, (IH i Hl Hx).
Qed.

Lemma forallb_filter {A : Type} (f g : A -> bool) (l : list A) :
  forallb f l = true -> forallb f (filter g l) = true.
Proof.
  induction l as [|y l IH]; simpl; [reflexivity|].
  rewrite andb_true_iff. intros [Hy Hl].
  destruct (g y); simpl; [now rewrite Hy, (IH Hl)|now apply IH].
Qed.

Lemma updateNote_tidy (now : Z) (id content : jsstring) (st : AsyncStore) :
  tidy content = true ->
  forallb (fun n => tidy (note_content n)) (loadNotes st) = true ->
  forallb (fun n => tidy (note_content n))
          (loadNotes (snd (updateNote now id content st))) = true.
Proof.
  intros Hc Hst. unfold updateNote.
  destruct (findIndex _ (loadNotes st)) as [i|]; [|exact Hst].
  destruct (nth_error (loadNotes st) i) as [old|]; [|exact Hst].
  cbn [snd]. unfold saveNotes, loadNotes at 1. cbn [notesKey].
  now apply forallb_setAt.
Qed.

Lemma vaultStep_tidy (st : AsyncStore) (a : vaultAction) :
  forallb (fun n => tidy (note_content n)) (loadNotes st) = true ->
  forallb (fun n => tidy (note_content n)) (loadNotes (vaultStep st a)) = true.
Proof.
  intro Hst. destruct a as [now1 suffix now2 content|now id content|id].
  - simpl. unfold handleSave. rewrite trim_length_blank.
    destruct (forallb isSpace content) eqn:Hb; [exact Hst|].
    simpl. now rewrite (trim_tidy content Hb).
  - simpl. unfold handleSave. rewrite trim_length_blank.
    destruct (forallb isSpace content) eqn:Hb; [exact Hst|].
    destruct (isEditMode (Some id)).
    + cbn [snd]. apply updateNote_tidy; [now apply trim_tidy|exact Hst].
    + simpl. now rewrite (trim_tidy content Hb).
  - simpl. unfold deleteNote.
    destruct (Nat.eqb _ _); [exact Hst|].
    cbn [snd]. unfold saveNotes, loadNotes at 1. cbn [notesKey].
    now apply forallb_filter.
Qed.

(** X7. Whatever is saved, edited and deleted in the vault, every stored
    note keeps a content that is not empty and has no white space at
    either end, provided the stored notes had it to begin with (an empty
    storage has). *)
Theorem vault_notes_stay_tidy :
  forall (actions : list vaultAction) (st : AsyncStore),
    forallb (fun n => tidy (note_content n)) (loadNotes st) = true ->
    forallb (fun n => tidy (note_content n)) (loadNotes (vaultRun st actions)) = true.
Proof.
  induction actions as [|a actions IH]; intros st H; [exact H|].
  simpl. apply IH. now apply vaultStep_tidy.
Qed.

(** X8. Saving the edit of a note that is no longer stored writes
    nothing and closes the screen all the same: the edit is lost without
    a message. *)
Theorem handleSave_edit_of_missing_note :
  forall now1 suffix now2 id content st,
    isEditMode (Some id) = true ->
    forallb isSpace content = false ->
    getNoteById id st = None ->
    handleSave now1 suffix now2 (Some id) content st = (WentBack, st).
Proof.
  intros now1 suffix now2 id content st He Hb Hn. unfold handleSave.
  rewrite trim_length_blank, Hb, He.
  now rewrite (updateNote_not_found now1 id (trim content) st Hn).
Qed.

(** X9. Cancel asks before leaving exactly in these cases: for a new
    note, when Save would store the text (it is not blank); for a note
    that was found and loaded, when the text differs from the stored one
    (so not when it is untouched); and always for a note that was not
    found, even with nothing typed. *)
Theorem cancel_asks_when :
  (forall now1 suffix now2 content original st,
      hasChanges None content original = true
      <-> fst (handleSave now1 suffix now2 None content st) = WentBack)
  /\ (forall id st note,
        isEditMode (Some id) = true ->
        getNoteById id st = Some note ->
        loadNote id st = (note_content note, Some note)
        /\ hasChanges (Some id) (fst (loadNote id st)) (snd (loadNote id st)) = false
        /\ (forall content,
              hasChanges (Some id) content (snd (loadNote id st)) = true
              <-> content <> note_content note))
  /\ (forall id st,
        isEditMode (Some id) = true ->
        getNoteById id st = None ->
        hasChanges (Some id) (fst (loadNote id st)) (snd (loadNote id st)) = true).
Proof.
  split; [|split].
  - intros. unfold hasChanges, handleSave. simpl isEditMode. cbv iota.
    rewrite trim_length_blank.
    destruct (forallb isSpace content); simpl; split; intro H;
      try reflexivity; discriminate.
  - intros id st note He Hg. unfold loadNote, hasChanges. rewrite Hg, He.
    cbn [fst snd]. rewrite jsstring_eqb_refl.
    split; [reflexivity|]. split; [reflexivity|].
    intro content. rewrite negb_true_iff. apply jsstring_eqb_neq.
  - intros id st He Hg. unfold loadNote, hasChanges. now rewrite Hg, He.
Qed.

(* ================================================================== *)
(** ** Typing an expression *)

Lemma spells_nil (evs : list event) : spells evs [] = true -> evs = [].
Proof.
  destruct evs as [|[n1 n2 [|x [|y v]]|] evs']; simpl; try discriminate; reflexivity.
Qed.

Lemma spells_cons (evs : list event) (c : codeunit) (t : jsstring) :
  spells evs (c :: t) = true ->
  exists now1 now2 evs', evs = Press now1 now2 [c] :: evs' /\ spells evs' t = true.
Proof.
  destruct evs as [|[n1 n2 [|x [|y v]]|] evs']; simpl; try discriminate.
  rewrite andb_true_iff. intros [Hc Ht]. apply N.eqb_eq in Hc. subst x.
  now exists n1, n2, evs'.
Qed.

Lemma spells_app (a b : jsstring) :
  forall evs, spells evs (a ++ b) = true ->
    exists e1 e2, evs = e1 ++ e2 /\ spells e1 a = true /\ spells e2 b = true.
Proof.
  induction a as [|c a IH]; intros evs H.
  - exists [], evs. repeat split; assumption.
  - simpl in H. destruct (spells_cons _ _ _ H) as (n1 & n2 & evs' & -> & H').
    destruct (IH evs' H') as (e1 & e2 & -> & H1 & H2).
    exists (Press n1 n2 [c] :: e1), e2. simpl. rewrite N.eqb_refl, H1.
    repeat split; assumption.
Qed.

Lemma run_app (s : CalcState) (e1 e2 : list event) :
  run s (e1 ++ e2) = run (run s e1) e2.
Proof. unfold run. apply fold_left_app. Qed.

Lemma withExpression_same (s : CalcState) :
  justCalculated s = false -> withExpression s (expression s) = s.
Proof. destruct s; simpl. intros ->. reflexivity. Qed.

Lemma press_digit (s : CalcState) now1 now2 (d : codeunit) :
  isDigit d = true ->
  step s (Press now1 now2 [d])
  = withExpression s (if justCalculated s then [d]
                      else if jsstring_eqb (expression s) (js "0") then [d]
                      else expression s ++ [d]).
Proof.
  intro Hd. unfold step, handleButtonPress.
  pose proof (proj1 (isDigit_range d) Hd) as Hr.
  rewrite press_char by lia. now rewrite (edit_digit _ _ _ _ Hd).
Qed.

Lemma press_operator (s : CalcState) now1 now2 (o : codeunit) :
  isOperator o = true ->
  step s (Press now1 now2 [o])
  = withExpression s (if justCalculated s then result s ++ [o]
                      else if endsWithOperator (expression s)
                           then dropLast (expression s) ++ [o]
                           else expression s ++ [o]).
Proof.
  intro Ho. unfold step, handleButtonPress.
  pose proof (proj1 (isOperator_cases o) Ho) as Hr.
  rewrite press_char by lia. now rewrite (edit_operator _ _ _ _ Ho).
Qed.

Lemma snoc_not_zero (p : jsstring) (c : codeunit) :
  nonEmpty p = true -> jsstring_eqb (p ++ [c]) (js "0") = false.
Proof.
  intro Hn. apply jsstring_eqb_neq. intro E.
  apply (f_equal (@List.length codeunit)) in E. rewrite length_app in E.
  destruct p; [discriminate|]. simpl in E. lia.
Qed.

Lemma ends_with_digits (p ds : jsstring) :
  nonEmpty ds = true -> forallb isDigit ds = true -> endsWithOperator (p ++ ds) = false.
Proof.
  intros Hn Hd. destruct (exists_last (l := ds)) as (ds' & x & ->).
  { intro E. subst ds. discriminate. }
  rewrite forallb_app in Hd. apply andb_true_iff in Hd as [_ Hx].
  simpl in Hx. rewrite andb_true_r in Hx.
  rewrite app_assoc, endsWithOperator_app. now apply digit_not_operator.
Qed.

Lemma type_digits (ds : jsstring) :
  forall (evs : list event) (s : CalcState),
    forallb isDigit ds = true -> spells evs ds = true ->
    justCalculated s = false -> nonEmpty (expression s) = true ->
    jsstring_eqb (expression s) (js "0") = false ->
    run s evs = withExpression s (expression s ++ ds).
Proof.
  induction ds as [|d ds IH]; intros evs s Hd Hs Hj Hn H0.
  - apply spells_nil in Hs. subst evs. rewrite app_nil_r. simpl.
    symmetry. now apply withExpression_same.
  - simpl in Hd. apply andb_true_iff in Hd as [Hd1 Hd2].
    destruct (spells_cons _ _ _ Hs) as (n1 & n2 & evs' & -> & Hs').
    rewrite run_cons, (press_digit s n1 n2 d Hd1), Hj, H0.
    rewrite (IH evs' (withExpression s (expression s ++ [d])) Hd2 Hs' eq_refl).
    + unfold withExpression. simpl. now rewrite <- app_assoc.
    + simpl. now rewrite nonEmpty_snoc.
    + simpl. now apply snoc_not_zero.
Qed.

Lemma type_piece (o : arith) (ds : jsstring) (evs : list event) (s : CalcState) :
  isOperandText ds = true -> spells evs (arithChar o :: ds) = true ->
  justCalculated s = false -> nonEmpty (expression s) = true ->
  endsWithOperator (expression s) = false ->
  run s evs = withExpression s (expression s ++ arithChar o :: ds).
Proof.
  intros Hds Hs Hj Hn He.
  destruct (spells_cons _ _ _ Hs) as (n1 & n2 & evs' & -> & Hs').
  assert (Ho : isOperator (arithChar o) = true) by (destruct o; reflexivity).
  destruct (operand_text ds Hds) as (d & n' & E & Hd & Hn').
  assert (Hall : forallb isDigit ds = true) by (subst ds; simpl; now rewrite Hd, Hn').
  rewrite run_cons, (press_operator s n1 n2 _ Ho), Hj, He.
  rewrite (type_digits ds evs' (withExpression s (expression s ++ [arithChar o]))
             Hall Hs' eq_refl).
  - unfold withExpression. simpl. now rewrite <- app_assoc.
  - simpl. now rewrite nonEmpty_snoc.
  - simpl. now apply snoc_not_zero.
Qed.

Lemma type_rest (rest : list (arith * jsstring)) :
  forall (evs : list event) (s : CalcState),
    forallb (fun p => isOperandText (snd p)) rest = true ->
    spells evs (flat_map (fun p => arithChar (fst p) :: snd p) rest) = true ->
    justCalculated s = false -> nonEmpty (expression s) = true ->
    endsWithOperator (expression s) = false ->
    run s evs
    = withExpression s
        (expression s ++ flat_map (fun p => arithChar (fst p) :: snd p) rest).
Proof.
  induction rest as [|[o ds] rest IH]; intros evs s Hr Hs Hj Hn He.
  - apply spells_nil in Hs. subst evs. simpl. rewrite app_nil_r.
    symmetry. now apply withExpression_same.
  - simpl in Hr. apply andb_true_iff in Hr as [Hds Hr].
    cbn [flat_map fst snd] in Hs |- *.
    destruct (spells_app _ _ _ Hs) as (e1 & e2 & -> & H1 & H2).
    rewrite run_app, (type_piece o ds e1 s Hds H1 Hj Hn He).
    destruct (operand_text ds Hds) as (d & n' & E & Hd & Hn').
    rewrite (IH e2 (withExpression s (expression s ++ arithChar o :: ds)) Hr H2 eq_refl).
    + unfold withExpression. simpl. now rewrite <- app_assoc.
    + simpl. destruct (expression s); [discriminate|reflexivity].
    + simpl.
      replace (expression s ++ arithChar o :: ds)
        with ((expression s ++ [arithChar o]) ++ ds)
        by (now rewrite <- app_assoc).
      apply ends_with_digits; subst ds; [reflexivity|].
      simpl. now rewrite Hd, Hn'.
Qed.

(** Typed on a buffer that is ["0"] or was just evaluated, the keys of a
    well-formed expression leave that expression in the buffer and touch
    nothing else. *)
Lemma type_render (s : CalcState) (n0 : jsstring) (rest : list (arith * jsstring))
  (evs : list event) :
  justCalculated s = true \/ expression s = js "0" ->
  wellFormed n0 rest = true -> typable n0 = true ->
  spells evs (render n0 rest) = true ->
  run s evs = withExpression s (render n0 rest).
Proof.
  intros Hstart Hw Ht Hs. unfold wellFormed in Hw.
  apply andb_true_iff in Hw as [H0 Hr]. unfold render in *.
  destruct (spells_app _ _ _ Hs) as (e0 & er & -> & Hs0 & Hsr).
  destruct (operand_text n0 H0) as (d & n' & -> & Hd & Hn').
  destruct (spells_cons _ _ _ Hs0) as (n1 & n2 & e0' & -> & Hs0').
  assert (E1 : step s (Press n1 n2 [d]) = withExpression s [d]).
  { rewrite (press_digit s n1 n2 d Hd).
    destruct Hstart as [-> | ->]; [reflexivity|].
    destruct (justCalculated s); reflexivity. }
  rewrite run_app, run_cons, E1.
  assert (E2 : run (withExpression s [d]) e0' = withExpression s (d :: n')).
  { destruct n' as [|d' n''].
    - apply spells_nil in Hs0'. now subst e0'.
    - simpl in Ht. apply negb_true_iff in Ht.
      rewrite (type_digits (d' :: n'') e0' (withExpression s [d]) Hn' Hs0' eq_refl eq_refl).
      + reflexivity.
      + simpl. now rewrite Ht. }
  rewrite E2.
  rewrite (type_rest rest er (withExpression s (d :: n')) Hr Hsr eq_refl eq_refl).
  - reflexivity.
  - simpl expression. apply (ends_with_digits [] (d :: n')); [reflexivity|].
    simpl. now rewrite Hd, Hn'.
Qed.

Lemma evaluateExpression_render (n0 : jsstring) (rest : list (arith * jsstring)) :
  wellFormed n0 rest = true ->
  evaluateExpression (render n0 rest) = display (precedenceValue n0 rest).
Proof.
  intro H.
  destruct (render_plain n0 rest H) as [Hn Hp].
  destruct (plain_text_passes _ Hp) as [Hnorm Hall].
  unfold evaluateExpression. fold (normalized (render n0 rest)).
  rewrite Hnorm.
  assert (Hw : whitelisted (render n0 rest) = true).
  { unfold whitelisted. destruct (render n0 rest); [discriminate|exact Hall]. }
  rewrite Hw, (runFunction_render n0 rest H). cbn [negb ToNumber].
  unfold display. destruct (num_isFinite (precedenceValue n0 rest)); reflexivity.
Qed.


(** X11. The vault can always be opened: from a buffer that is ["0"] or
    was just evaluated, the keys [6 9 / 6 7 =] lead to the notes and leave
    the calculator with the buffer ["0"], an empty display and the ledger
    it had; from any state at all, [C] first does the same with the
    ledger wiped. *)
Theorem vault_opens_from_anywhere :
  (forall (s : CalcState) (evs : list event) (now1 now2 : Z),
      justCalculated s = true \/ expression s = js "0" ->
      spells evs SECRET_CODE = true ->
      run s (evs ++ [Press now1 now2 (js "=")])
      = mkState (js "0") [] (history s) false (storage s) Notes)
  /\ (forall (s : CalcState) (evs : list event) (now1 now2 now3 now4 : Z),
        spells evs SECRET_CODE = true ->
        run s (Press now1 now2 (js "C") :: evs ++ [Press now3 now4 (js "=")])
        = mkState (js "0") [] [] false (Some []) Notes).
Proof.
  assert (G : forall (s : CalcState) (evs : list event) (now1 now2 : Z),
             justCalculated s = true \/ expression s = js "0" ->
             spells evs SECRET_CODE = true ->
             run s (evs ++ [Press now1 now2 (js "=")])
             = mkState (js "0") [] (history s) false (storage s) Notes).
  { intros s evs now1 now2 Hstart Hs.
    change SECRET_CODE with (render (js "69") [(Divide, js "67")]) in Hs.
    rewrite run_app,
      (type_render s (js "69") [(Divide, js "67")] evs Hstart eq_refl eq_refl Hs).
    simpl run. unfold handleButtonPress. now rewrite press_secret. }
  split; [exact G|].
  intros s evs now1 now2 now3 now4 Hs. rewrite run_cons.
  rewrite G; [reflexivity| |exact Hs]. right. reflexivity.
Qed.

(* ================================================================== *)
(** ** What the ledger holds *)

Lemma step_honest (s : CalcState) (ev : event) :
  forallb honestItem (history s) = true ->
  forallb honestItem (loadHistory (storage s)) = true ->
  forallb honestItem (history (step s ev)) = true
  /\ forallb honestItem (loadHistory (storage (step s ev))) = true.
Proof.
  intros Hh Hs. destruct ev as [now1 now2 value|]; [|split; exact Hs].
  unfold step, handleButtonPress, handleButtonPressWith.
  destruct (jsstring_eqb value (js "C")); [split; reflexivity|].
  destruct (jsstring_eqb value (js "DEL")); [split; assumption|].
  destruct (jsstring_eqb value (js "=")); [|split; assumption].
  destruct (checkSecretCode (expression s)) eqn:Hsec; [split; assumption|].
  destruct (jsstring_eqb (evaluateExpression (expression s)) ERROR) eqn:He;
    cbn [negb]; [split; assumption|].
  cbn [history storage saveHistory loadHistory].
  assert (H : forallb honestItem
                (firstn 10 (mkItem (numberToString (num_ofZ now1)) (expression s)
                                   (evaluateExpression (expression s)) now2
                            :: history s)) = true).
  { apply forallb_firstn. cbn [forallb]. rewrite Hh, andb_true_r.
    unfold honestItem. cbn [item_expression item_result].
    now rewrite Hsec, He, jsstring_eqb_refl. }
  split; exact H.
Qed.

(** X12. Every entry of the ledger, in memory and persisted, is a
    successful evaluation: its expression is not the secret code, its
    result is not ["Error"], and its result is what [evaluateExpression]
    gives on its expression.  This holds after any presses and restarts,
    from any state whose entries are such (a fresh installation has
    none). *)
Theorem ledger_holds_only_evaluations :
  forall (evs : list event) (s : CalcState),
    forallb honestItem (history s) = true ->
    forallb honestItem (loadHistory (storage s)) = true ->
    forallb honestItem (history (run s evs)) = true
    /\ forallb honestItem (loadHistory (storage (run s evs))) = true
    /\ (forall h, In h (history (run s evs)) ->
          item_expression h <> SECRET_CODE
          /\ item_result h <> ERROR
          /\ item_result h = evaluateExpression (item_expression h)).
Proof.
  induction evs as [|ev evs IH]; intros s Hh Hs.
  - split; [exact Hh|]. split; [exact Hs|].
    intros h Hin. simpl in Hin.
    pose proof (proj1 (forallb_forall _ _) Hh h Hin) as H.
    unfold honestItem in H. apply andb_true_iff in H as [H H3].
    apply andb_true_iff in H as [H1 H2].
    apply negb_true_iff in H1, H2.
    split; [|split].
    + intro E. unfold checkSecretCode in H1. rewrite E, jsstring_eqb_refl in H1.
      discriminate.
    + now apply jsstring_eqb_neq.
    + now apply jsstring_eqb_eq.
  - rewrite run_cons. destruct (step_honest s ev Hh Hs) as [H1 H2]. now apply IH.
Qed.

(* ================================================================== *)
(** ** The way to the vault *)

Lemma press_route (s : CalcState) now1 now2 (value : jsstring) :
  route (handleButtonPress now1 now2 value s)
  = if jsstring_eqb value (js "=") && checkSecretCode (expression s)
    then Notes else route s.
Proof.
  unfold handleButtonPress, handleButtonPressWith.
  destruct (jsstring_eqb value (js "C")) eqn:EC.
  { apply jsstring_eqb_eq in EC. subst value. reflexivity. }
  destruct (jsstring_eqb value (js "DEL")) eqn:ED.
  { apply jsstring_eqb_eq in ED. subst value. reflexivity. }
  destruct (jsstring_eqb value (js "=")); [|reflexivity].
  destruct (checkSecretCode (expression s)); [reflexivity|].
  cbn [andb]. destruct (negb _); reflexivity.
Qed.

(** X13. The only way to the notes is [=] on a buffer that is exactly the
    secret code: a run of presses and restarts that starts on the
    calculator and ends on the notes contains such a press. *)
Theorem vault_only_by_secret_code :
  forall (evs : list event) (s : CalcState),
    route s = Calculator ->
    route (run s evs) = Notes ->
    exists e1 now1 now2 e2,
      evs = e1 ++ Press now1 now2 (js "=") :: e2
      /\ expression (run s e1) = SECRET_CODE.
Proof.
  induction evs as [|ev evs IH] using rev_ind; intros s Hs Hr.
  - simpl in Hr. congruence.
  - rewrite run_app in Hr. simpl in Hr.
    destruct ev as [now1 now2 value|]; [|discriminate].
    simpl in Hr. rewrite press_route in Hr.
    destruct (jsstring_eqb value (js "=")) eqn:Ev.
    + destruct (checkSecretCode (run s evs).(expression)) eqn:Hc.
      * apply jsstring_eqb_eq in Ev, Hc. subst value.
        exists evs, now1, now2, []. split; [reflexivity|exact Hc].
      * simpl in Hr. destruct (IH s Hs Hr) as (e1 & n1 & n2 & e2 & -> & He).
        exists e1, n1, n2, (e2 ++ [Press now1 now2 value]).
        split; [|exact He]. now rewrite <- app_assoc.
    + simpl in Hr. destruct (IH s Hs Hr) as (e1 & n1 & n2 & e2 & -> & He).
      exists e1, n1, n2, (e2 ++ [Press now1 now2 value]).
      split; [|exact He]. now rewrite <- app_assoc.
Qed.

(* ================================================================== *)
(** ** Keys that correct the input *)

(** X14. An operator key pressed right after another operator key takes
    its place: the two presses leave the state the second one alone
    leaves, whatever the buffer and the flag were. *)
Theorem operator_key_replaces_operator :
  forall (s : CalcState) (now1 now2 now3 now4 : Z) (o1 o2 : codeunit),
    isOperator o1 = true ->
    isOperator o2 = true ->
    step (step s (Press now1 now2 [o1])) (Press now3 now4 [o2])
    = step s (Press now3 now4 [o2]).
Proof.
  intros s now1 now2 now3 now4 o1 o2 H1 H2.
  rewrite (press_operator s now1 now2 o1 H1), (press_operator s now3 now4 o2 H2).
  rewrite (press_operator _ now3 now4 o2 H2).
  unfold withExpression. cbn [expression result history justCalculated storage route].
  destruct (justCalculated s).
  - now rewrite endsWithOperator_app, H1, removelast_snoc.
  - destruct (endsWithOperator (expression s)).
    + now rewrite endsWithOperator_app, H1, removelast_snoc.
    + now rewrite endsWithOperator_app, H1, removelast_snoc.
Qed.

Lemma press_del (s : CalcState) now1 now2 :
  step s (Press now1 now2 (js "DEL"))
  = withExpression s (if Nat.leb (List.length (expression s)) 1 then js "0"
                      else dropLast (expression s)).
Proof. reflexivity. Qed.

Lemma length_dropLast (p : jsstring) :
  List.length (dropLast p) = Nat.pred (List.length p).
Proof.
  destruct p as [|a p]; [reflexivity|].
  destruct (exists_last (l := a :: p)) as (q & x & E); [discriminate|].
  rewrite E. unfold dropLast. rewrite removelast_snoc, length_app. simpl. lia.
Qed.

(** X15. [DEL] pressed at least as many times as the buffer is long (and
    at least once) leaves the buffer ["0"], and nothing else changes but
    the flag, which is down; further presses keep it so. *)
Theorem del_clears_to_zero :
  forall (evs : list event) (s : CalcState),
    forallb isDel evs = true ->
    (1 <= List.length evs)%nat ->
    (List.length (expression s) <= List.length evs)%nat ->
    run s evs = withExpression s (js "0").
Proof.
  induction evs as [|ev evs IH]; intros s Hd H1 Hl; [simpl in H1; lia|].
  simpl in Hd. apply andb_true_iff in Hd as [Hev Hd].
  destruct ev as [now1 now2 value|]; [|discriminate].
  simpl in Hev. apply jsstring_eqb_eq in Hev. subst value.
  rewrite run_cons, press_del. simpl in Hl.
  destruct evs as [|ev' evs'].
  - simpl. destruct (Nat.leb_spec (List.length (expression s)) 1) as [_|C];
      [reflexivity|]. simpl in Hl. lia.
  - rewrite IH; [reflexivity|exact Hd|simpl; lia|].
    cbn [expression withExpression].
    destruct (Nat.leb_spec (List.length (expression s)) 1) as [_|C].
    + simpl. lia.
    + rewrite length_dropLast. simpl in *. lia.
Qed.

(** X16. [DEL] takes back the key pressed before it: a digit always, an
    operator typed after something that is not an operator, and a decimal
    point that the guard let in.  The state is the one before the two
    presses (the flag being down and the buffer not empty). *)
Theorem del_takes_back_a_key :
  forall (s : CalcState) (now1 now2 now3 now4 : Z) (c : codeunit),
    justCalculated s = false ->
    nonEmpty (expression s) = true ->
    isDigit c = true
    \/ (isOperator c = true /\ endsWithOperator (expression s) = false)
    \/ (c = 46%N /\ includesDot (operandSinceLastOperator (expression s)) = false) ->
    step (step s (Press now1 now2 [c])) (Press now3 now4 (js "DEL")) = s.
Proof.
  intros s now1 now2 now3 now4 c Hj Hn Hc.
  assert (Hsnoc : step (withExpression s (expression s ++ [c])) (Press now3 now4 (js "DEL"))
                  = s).
  { assert (Hlen : (1 <= List.length (expression s))%nat).
    { destruct (expression s); [discriminate|simpl; lia]. }
    rewrite press_del. cbn [expression withExpression].
    rewrite length_app. simpl (List.length [c]).
    destruct (Nat.leb_spec (List.length (expression s) + 1) 1) as [C|_]; [lia|].
    unfold dropLast. rewrite removelast_snoc.
    destruct s; simpl in *. now subst. }
  destruct Hc as [Hd | [[Ho He] | [-> Hdot]]].
  - rewrite (press_digit s now1 now2 c Hd), Hj.
    destruct (jsstring_eqb (expression s) (js "0")) eqn:E0; [|exact Hsnoc].
    apply jsstring_eqb_eq in E0. rewrite press_del. cbn [expression withExpression].
    destruct s; simpl in *. now subst.
  - rewrite (press_operator s now1 now2 c Ho), Hj, He. exact Hsnoc.
  - unfold step at 2. unfold handleButtonPress.
    rewrite press_char by discriminate. rewrite edit_dot, Hdot. exact Hsnoc.
Qed.

(** X17. [=] pressed again evaluates the same buffer again: the buffer and
    the display stay, and a successful evaluation is put in the ledger a
    second time (an error is logged neither time). *)
Theorem equals_again_logs_again :
  forall (s : CalcState) (now1 now2 now3 now4 : Z),
    checkSecretCode (expression s) = false ->
    let once := step s (Press now1 now2 (js "=")) in
    let twice := step once (Press now3 now4 (js "=")) in
    let item := fun now now' =>
      mkItem (numberToString (num_ofZ now)) (expression s)
             (evaluateExpression (expression s)) now' in
    expression twice = expression s
    /\ result twice = result once
    /\ result once = evaluateExpression (expression s)
    /\ justCalculated twice = true
    /\ history twice
       = (if jsstring_eqb (evaluateExpression (expression s)) ERROR then history s
          else firstn 10 (item now3 now4 :: item now1 now2 :: history s)).
Proof.
  intros s now1 now2 now3 now4 Hsec once twice item.
  assert (E1 : once
               = if negb (jsstring_eqb (evaluateExpression (expression s)) ERROR) then
                   mkState (expression s) (evaluateExpression (expression s))
                     (firstn 10 (item now1 now2 :: history s)) true
                     (Some (firstn 10 (item now1 now2 :: history s))) (route s)
                 else mkState (expression s) (evaluateExpression (expression s))
                        (history s) true (storage s) (route s)).
  { subst once. unfold step, handleButtonPress. now rewrite press_equals. }
  subst twice. clearbody once.
  destruct (jsstring_eqb (evaluateExpression (expression s)) ERROR) eqn:He;
    cbn [negb] in E1; subst once; unfold step, handleButtonPress;
    rewrite press_equals by exact Hsec;
    cbn [expression result history justCalculated]; rewrite He;
    cbn [negb expression result history justCalculated].
  - repeat split; reflexivity.
  - repeat split; try reflexivity.
    apply firstn_cons_firstn.
Qed.

(* ================================================================== *)
(** ** One decimal point per operand *)

Lemma dots_cons (c : codeunit) (s : jsstring) : dots (c :: s) = (dotOf c + dots s)%nat.
Proof. unfold dots, dotOf. simpl. destruct (N.eqb c 46); reflexivity. Qed.

Lemma dots_app (a b : jsstring) : dots (a ++ b) = (dots a + dots b)%nat.
Proof. unfold dots. now rewrite filter_app, length_app. Qed.

Lemma dotOf_le (c : codeunit) : (dotOf c <= 1)%nat.
Proof. unfold dotOf. destruct (N.eqb c 46); lia. Qed.

Lemma dotOf_digit (c : codeunit) : isDigit c = true -> dotOf c = 0%nat.
Proof.
  intro H. apply isDigit_range in H. unfold dotOf.
  destruct (N.eqb_spec c 46); [lia|reflexivity].
Qed.

Lemma dotOf_operator (c : codeunit) : isOperator c = true -> dotOf c = 0%nat.
Proof.
  intro H. apply isOperator_cases in H. unfold dotOf.
  destruct (N.eqb_spec c 46); [lia|reflexivity].
Qed.

Lemma dots_digits (ds : jsstring) : forallb isDigit ds = true -> dots ds = 0%nat.
Proof.
  induction ds as [|d ds IH]; simpl; [reflexivity|].
  rewrite andb_true_iff. intros [Hd Hds].
  now rewrite dots_cons, (dotOf_digit d Hd), (IH Hds).
Qed.

Lemma dots_no_point (s : jsstring) : includesDot s = false -> dots s = 0%nat.
Proof.
  unfold includesDot. induction s as [|c s IH]; [reflexivity|].
  cbn [existsb]. rewrite orb_false_iff. intros [Hc Hs]. rewrite dots_cons, (IH Hs).
  unfold dotOf. rewrite N.eqb_sym, Hc. reflexivity.
Qed.

Lemma split_scanDots (s : jsstring) :
  forall cur : jsstring,
    forallb (fun part => Nat.leb (dots part) 1) (splitFrom cur s)
    = scanDots (dots cur) s.
Proof.
  induction s as [|c s IH]; intro cur; simpl.
  - apply andb_true_r.
  - destruct (isOperator c).
    + simpl. now rewrite (IH []).
    + rewrite (IH (cur ++ [c])), dots_app, dots_cons. simpl.
      now rewrite Nat.add_0_r.
Qed.

Lemma oneDotPerOperand_scan (b : jsstring) : oneDotPerOperand b = scanDots 0 b.
Proof. unfold oneDotPerOperand, split. apply (split_scanDots b []). Qed.

Lemma scanDots_snoc (s : jsstring) (c : codeunit) :
  forall n : nat,
    scanDots n (s ++ [c])
    = scanDots n s
      && (if isOperator c then true else Nat.leb (lastDots n s + dotOf c) 1).
Proof.
  induction s as [|a s IH]; intro n; simpl.
  - destruct (isOperator c); simpl.
    + now rewrite !andb_true_r.
    + destruct (Nat.leb_spec (n + dotOf c) 1) as [H|H].
      * replace (Nat.leb n 1) with true; [reflexivity|].
        symmetry. apply Nat.leb_le. lia.
      * now rewrite andb_false_r.
  - destruct (isOperator a).
    + now rewrite (IH 0%nat), andb_assoc.
    + apply IH.
Qed.

Lemma lastDots_snoc (s : jsstring) (c : codeunit) :
  forall n : nat,
    lastDots n (s ++ [c])
    = if isOperator c then 0%nat else (lastDots n s + dotOf c)%nat.
Proof.
  induction s as [|a s IH]; intro n; simpl.
  - destruct (isOperator c); reflexivity.
  - destruct (isOperator a); apply IH.
Qed.

Lemma scanDots_last (s : jsstring) :
  forall n : nat, scanDots n s = true -> (lastDots n s <= 1)%nat.
Proof.
  induction s as [|a s IH]; intro n; simpl.
  - intro H. now apply Nat.leb_le.
  - destruct (isOperator a).
    + rewrite andb_true_iff. intros [_ H]. now apply IH.
    + apply IH.
Qed.

Lemma scanDots_few (s : jsstring) :
  forall n : nat, (n + dots s <= 1)%nat -> scanDots n s = true.
Proof.
  induction s as [|a s IH]; intro n; simpl.
  - unfold dots. simpl. intro H. apply Nat.leb_le. lia.
  - rewrite dots_cons. intro H. destruct (isOperator a).
    + rewrite (IH 0%nat) by lia. rewrite andb_true_r. apply Nat.leb_le. lia.
    + apply IH. lia.
Qed.

Lemma scanDots_dropLast (p : jsstring) (n : nat) :
  scanDots n p = true -> scanDots n (dropLast p) = true.
Proof.
  destruct p as [|a p]; [trivial|].
  destruct (exists_last (l := a :: p)) as (q & x & E); [discriminate|].
  rewrite E. unfold dropLast. rewrite removelast_snoc, scanDots_snoc.
  rewrite andb_true_iff. now intros [H _].
Qed.

Lemma operand_snoc (q : jsstring) (c : codeunit) :
  operandSinceLastOperator (q ++ [c])
  = if isOperator c then [] else operandSinceLastOperator q ++ [c].
Proof.
  unfold operandSinceLastOperator. rewrite rev_app_distr. simpl.
  destruct (isOperator c); reflexivity.
Qed.

Lemma lastDots_operand (p : jsstring) :
  lastDots 0 p = dots (operandSinceLastOperator p).
Proof.
  induction p as [|c q IH] using rev_ind; [reflexivity|].
  rewrite lastDots_snoc, operand_snoc.
  destruct (isOperator c); [reflexivity|].
  rewrite dots_app, dots_cons, IH. unfold dots at 3. simpl. lia.
Qed.

Lemma dots_formatDecimal (ds : jsstring) (n : Z) :
  forallb isDigit ds = true -> (dots (formatDecimal ds n) <= 1)%nat.
Proof.
  intro Hd. unfold formatDecimal.
  destruct ((Z.of_nat (List.length ds) <=? n) && (n <=? 21)).
  { rewrite dots_app, (dots_digits ds Hd), (dots_digits _ (zeros_digits _)). lia. }
  destruct ((0 <? n) && (n <=? 21)).
  { rewrite !dots_app.
    rewrite (dots_digits _ (forallb_firstn isDigit (Z.to_nat n) ds Hd)).
    rewrite (dots_digits _ (forallb_skipn isDigit (Z.to_nat n) ds Hd)).
    simpl. lia. }
  destruct ((-6 <? n) && (n <=? 0)).
  { rewrite !dots_app, (dots_digits ds Hd), (dots_digits _ (zeros_digits _)).
    simpl. lia. }
  assert (Hs : dots (if n - 1 <? 0 then js "-" else js "+") = 0%nat).
  { destruct (n - 1 <? 0); reflexivity. }
  pose proof (dots_digits _ (decimalDigits_digits (Z.abs (n - 1)))) as He.
  destruct ds as [|d [|d' rest]].
  - unfold dots. simpl. lia.
  - simpl in Hd. rewrite andb_true_r in Hd.
    rewrite dots_cons, !dots_app, Hs, He, (dotOf_digit d Hd).
    unfold dots. simpl. lia.
  - simpl in Hd. apply andb_true_iff in Hd as [Hd1 Hd2].
    rewrite dots_cons, !dots_app, Hs, He, (dotOf_digit d Hd1).
    rewrite (dots_digits (d' :: rest)) by exact Hd2. unfold dots. simpl. lia.
Qed.

Lemma dots_numberToString (x : Number) : (dots (numberToString x) <= 1)%nat.
Proof.
  destruct x as [s|s| |s m e];
    try (unfold dots; simpl; lia);
    try (destruct s; unfold dots; simpl; lia).
  unfold numberToString.
  destruct (shortestDigits_digits m e) as [_ Hd].
  destruct (shortestDigits m e) as [ds n]. simpl in Hd.
  pose proof (dots_formatDecimal ds n Hd) as H.
  rewrite dots_app. destruct s; unfold dots at 1; simpl; lia.
Qed.

Lemma dots_evaluateExpression (s : jsstring) : (dots (evaluateExpression s) <= 1)%nat.
Proof.
  destruct (evaluateExpression_cases s) as [-> | [x [_ ->]]].
  - unfold dots. simpl. lia.
  - apply dots_numberToString.
Qed.

Lemma step_dots (s : CalcState) (ev : event) :
  isButton ev = true ->
  scanDots 0 (expression s) = true -> (dots (result s) <= 1)%nat ->
  scanDots 0 (expression (step s ev)) = true /\ (dots (result (step s ev)) <= 1)%nat.
Proof.
  intros Hb He Hr. destruct ev as [now1 now2 value|]; [|split; [reflexivity|unfold dots; simpl; lia]].
  destruct (button_cases now1 now2 value Hb)
    as [-> | [-> | [-> | (c & -> & HC & HE & Hc)]]].
  - split; [reflexivity|unfold dots; simpl; lia].
  - rewrite press_del. cbn [expression result withExpression].
    split; [|exact Hr].
    destruct (Nat.leb _ 1); [reflexivity|now apply scanDots_dropLast].
  - unfold step, handleButtonPress.
    destruct (checkSecretCode (expression s)) eqn:Hsec.
    + rewrite press_secret by exact Hsec. split; [reflexivity|unfold dots; simpl; lia].
    + rewrite press_equals by exact Hsec.
      destruct (negb _); cbn [expression result];
        (split; [exact He|apply dots_evaluateExpression]).
  - destruct Hc as [Hd | [Ho | ->]].
    + rewrite (press_digit s now1 now2 c Hd). cbn [expression result withExpression].
      split; [|exact Hr].
      assert (H1 : scanDots 0 [c] = true).
      { simpl. now rewrite (digit_not_operator c Hd), (dotOf_digit c Hd). }
      destruct (justCalculated s); [exact H1|].
      destruct (jsstring_eqb (expression s) (js "0")); [exact H1|].
      rewrite scanDots_snoc, He, (digit_not_operator c Hd), (dotOf_digit c Hd).
      simpl. apply Nat.leb_le. pose proof (scanDots_last _ _ He). lia.
    + rewrite (press_operator s now1 now2 c Ho). cbn [expression result withExpression].
      split; [|exact Hr].
      destruct (justCalculated s).
      * rewrite scanDots_snoc, Ho, andb_true_r. apply scanDots_few. simpl. lia.
      * destruct (endsWithOperator (expression s));
          rewrite scanDots_snoc, Ho, andb_true_r;
          [now apply scanDots_dropLast|exact He].
    + unfold step, handleButtonPress. rewrite press_char by discriminate.
      rewrite edit_dot. cbn [expression result].
      split; [|exact Hr].
      destruct (includesDot (operandSinceLastOperator (expression s))) eqn:Hi;
        [exact He|].
      rewrite scanDots_snoc, He. simpl.
      rewrite lastDots_operand, (dots_no_point _ Hi). reflexivity.
Qed.

(** X18. No operand ever holds two decimal points: after any keys of the
    grid and restarts, every part of the buffer between operators has at
    most one [.], and so has the displayed result, from any state where
    this is so (the initial one is). *)
Theorem one_decimal_point_per_operand :
  forall (evs : list event) (s : CalcState),
    forallb isButton evs = true ->
    oneDotPerOperand (expression s) = true ->
    (dots (result s) <= 1)%nat ->
    oneDotPerOperand (expression (run s evs)) = true
    /\ (dots (result (run s evs)) <= 1)%nat.
Proof.
  induction evs as [|ev evs IH]; intros s Hb He Hr; [now split|].
  simpl in Hb. apply andb_true_iff in Hb as [Hb1 Hb2].
  rewrite run_cons. rewrite oneDotPerOperand_scan in He.
  destruct (step_dots s ev Hb1 He Hr) as [H1 H2].
  apply IH; [exact Hb2| |exact H2]. now rewrite oneDotPerOperand_scan.
Qed.

(* ================================================================== *)
(** ** Expressions that show an error *)

Lemma lex_rest_open (rest : list (arith * jsstring)) :
  forall (acc : jsstring) (o : arith),
    forallb (fun p => isOperandText (snd p)) rest = true ->
    lexFrom (mkLexer (LInt acc) false false)
            (flat_map (fun p => arithChar (fst p) :: snd p) rest ++ [arithChar o])
    = Some ((false, TNum (integerLiteral acc))
            :: flat_map pieceTokens rest ++ [(false, TOp (arithOp o))]).
Proof.
  induction rest as [|[o' n] rest IH]; intros acc o H.
  - simpl app. rewrite lexFrom_cons, lexChar_operator. destruct o; reflexivity.
  - simpl in H. apply andb_true_iff in H as [Hn Hrest].
    destruct (operand_text n Hn) as (d & n' & -> & Hd & Hn').
    cbn [flat_map fst snd]. simpl app.
    rewrite lexFrom_cons, lexChar_operator.
    rewrite lexFrom_cons, (lexChar_after_operator o' d Hd).
    rewrite <- app_assoc.
    rewrite (lex_digits n' [d] false false _ Hn').
    rewrite (IH ([d] ++ n') o Hrest). reflexivity.
Qed.

Lemma tokenize_open (n0 : jsstring) (rest : list (arith * jsstring)) (o : arith) :
  wellFormed n0 rest = true ->
  tokenize (render n0 rest ++ [arithChar o])
  = Some ((false, TNum (integerLiteral n0))
          :: flat_map pieceTokens rest ++ [(false, TOp (arithOp o))]).
Proof.
  unfold wellFormed. rewrite andb_true_iff. intros [H0 Hrest].
  destruct (operand_text n0 H0) as (d & n' & -> & Hd & Hn').
  unfold tokenize, render. simpl app.
  rewrite lexFrom_cons. unfold lexChar. cbn [lx_state lx_operand lx_nl].
  rewrite (startChar_digit false false d Hd).
  rewrite <- app_assoc.
  rewrite (lex_digits n' [d] false false _ Hn').
  rewrite (lex_rest_open rest ([d] ++ n') o Hrest). reflexivity.
Qed.

Lemma parseTokens_app (a b : list ltoken) :
  forall p : pstate,
    parseTokens p (a ++ b)
    = match parseTokens p a with
      | Some p' => parseTokens p' b
      | None => None
      end.
Proof.
  induction a as [|t a IH]; intro p; simpl; [reflexivity|].
  destruct (parseToken p t); [apply IH|reflexivity].
Qed.

Lemma parseBody_open (n0 : jsstring) (rest : list (arith * jsstring)) (o : arith) :
  parseBody ((false, TNum (integerLiteral n0))
             :: flat_map pieceTokens rest ++ [(false, TOp (arithOp o))])
  = None.
Proof.
  unfold parseBody.
  change (parseTokens (mkP None [] Operand)
            ((false, TNum (integerLiteral n0))
             :: flat_map pieceTokens rest ++ [(false, TOp (arithOp o))]))
    with (parseTokens (afterOperand None None (ENum (integerLiteral n0)))
            (flat_map pieceTokens rest ++ [(false, TOp (arithOp o))])).
  rewrite parseTokens_app.
  destruct (parse_rest rest None None (ENum (integerLiteral n0)))
    as (sum' & prod' & cur' & -> & _).
  destruct sum' as [[a [|]]|], prod' as [[t [|]]|], o; reflexivity.
Qed.

(** X19. An expression left unfinished shows an error: a well-formed
    expression followed by one more operator character evaluates to
    ["Error"]. *)
Theorem unfinished_expression_is_error :
  forall (n0 : jsstring) (rest : list (arith * jsstring)) (o : arith),
    wellFormed n0 rest = true ->
    evaluateExpression (render n0 rest ++ [arithChar o]) = ERROR.
Proof.
  intros n0 rest o H.
  destruct (render_plain n0 rest H) as [Hn Hp].
  assert (Hp' : forallb (fun c => isDigit c || isOperator c)
                  (render n0 rest ++ [arithChar o]) = true).
  { rewrite forallb_app, Hp. destruct o; reflexivity. }
  destruct (plain_text_passes _ Hp') as [Hnorm Hall].
  unfold evaluateExpression. fold (normalized (render n0 rest ++ [arithChar o])).
  rewrite Hnorm.
  assert (Hw : whitelisted (render n0 rest ++ [arithChar o]) = true).
  { unfold whitelisted.
    destruct (render n0 rest ++ [arithChar o]) eqn:E; [|exact Hall].
    destruct (render n0 rest); discriminate. }
  rewrite Hw. unfold runFunction.
  now rewrite (tokenize_open n0 rest o H), parseBody_open.
Qed.

Lemma digitsValue_zeros (base : Z) (z : jsstring) :
  forallb (fun c => N.eqb c 48) z = true -> digitsValue base z = 0.
Proof.
  unfold digitsValue. induction z as [|c z IH]; simpl; [reflexivity|].
  rewrite andb_true_iff. intros [Hc Hz]. apply N.eqb_eq in Hc. subst c.
  exact (IH Hz).
Qed.

Lemma zero_literal (z : jsstring) :
  isZeroText z = true -> integerLiteral z = posZero.
Proof.
  unfold isZeroText. rewrite andb_true_iff. intros [_ Hz].
  unfold integerLiteral. rewrite !(digitsValue_zeros _ z Hz).
  destruct (isLegacyOctal z); reflexivity.
Qed.

Lemma num_mul_nonfinite (x y : Number) :
  num_isFinite x = false -> num_isFinite (num_mul x y) = false.
Proof. destruct x, y; intro H; try discriminate; reflexivity. Qed.

Lemma num_div_nonfinite (x y : Number) :
  num_isFinite x = false -> num_isFinite (num_div x y) = false.
Proof. destruct x, y; intro H; try discriminate; reflexivity. Qed.

Lemma num_div_zero (x : Number) : num_isFinite (num_div x posZero) = false.
Proof. destruct x; reflexivity. Qed.

Lemma num_add_nonfinite (x y : Number) :
  num_isFinite x = false \/ num_isFinite y = false ->
  num_isFinite (num_add x y) = false.
Proof.
  destruct x as [sx|sx| |sx mx ex], y as [sy|sy| |sy my ey]; intros [H|H];
    try discriminate; try reflexivity;
    destruct sx, sy; reflexivity.
Qed.

Lemma num_sub_nonfinite (x y : Number) :
  num_isFinite x = false \/ num_isFinite y = false ->
  num_isFinite (num_sub x y) = false.
Proof.
  destruct x as [sx|sx| |sx mx ex], y as [sy|sy| |sy my ey]; intros [H|H];
    try discriminate; try reflexivity;
    destruct sx, sy; reflexivity.
Qed.

Lemma addTerm_nonfinite (sum : option (Number * bool)) (term : Number) :
  num_isFinite term = false \/ sumNonFinite sum = true ->
  num_isFinite (addTerm sum term) = false.
Proof.
  destruct sum as [[a [|]]|]; simpl.
  - intros [H|H]; apply num_sub_nonfinite; [now right|left; now apply negb_true_iff].
  - intros [H|H]; apply num_add_nonfinite; [now right|left; now apply negb_true_iff].
  - intros [H|H]; [exact H|discriminate].
Qed.

Lemma twoLevel_nonfinite (rest : list (arith * Number)) :
  forall (sum : option (Number * bool)) (term : Number),
    num_isFinite term = false \/ sumNonFinite sum = true ->
    num_isFinite (twoLevel sum term rest) = false.
Proof.
  induction rest as [|[o v] rest IH]; intros sum term H.
  - now apply addTerm_nonfinite.
  - destruct o; simpl; apply IH.
    + right. simpl. now rewrite (addTerm_nonfinite sum term H).
    + right. simpl. now rewrite (addTerm_nonfinite sum term H).
    + destruct H as [H|H]; [left; now apply num_mul_nonfinite|now right].
    + destruct H as [H|H]; [left; now apply num_div_nonfinite|now right].
Qed.

Lemma twoLevel_divides_by_zero (rest : list (arith * jsstring)) :
  forall (sum : option (Number * bool)) (term : Number),
    dividesByZero rest = true ->
    num_isFinite
      (twoLevel sum term (map (fun p => (fst p, integerLiteral (snd p))) rest))
    = false.
Proof.
  induction rest as [|[o n] rest IH]; intros sum term H; [discriminate|].
  unfold dividesByZero in H. cbn [existsb fst snd] in H.
  apply orb_true_iff in H as [H|H].
  - destruct o; try discriminate.
    cbn [map fst snd twoLevel]. apply twoLevel_nonfinite. left.
    rewrite (zero_literal n H). apply num_div_zero.
  - cbn [map fst snd]. destruct o; simpl; now apply IH.
Qed.

(** X20. A division by a literal zero anywhere in a well-formed
    expression makes it evaluate to ["Error"], whatever comes before and
    after. *)
Theorem division_by_zero_is_error :
  forall (n0 : jsstring) (rest : list (arith * jsstring)),
    wellFormed n0 rest = true ->
    dividesByZero rest = true ->
    evaluateExpression (render n0 rest) = ERROR.
Proof.
  intros n0 rest Hw Hz.
  rewrite (evaluateExpression_render n0 rest Hw).
  unfold display, precedenceValue.
  now rewrite (twoLevel_divides_by_zero rest None (integerLiteral n0) Hz).
Qed.

(* ================================================================== *)
(** ** Precedence with decimal operands *)

















(* ================================================================== *)
(** ** Continuing from a result *)






End Engine.

(* ================================================================== *)
(** ** Instances of the theorems *)

Lemma checkSecretCode_exact_near_miss :
  expression (stateWith (js "69/68")) <> js "69/67"
  /\ result (handleButtonPress examplePow 0 0 (js "=") (stateWith (js "69/68")))
     = evaluateExpression examplePow (js "69/68")
  /\ evaluateExpression examplePow (js "69/68") = js "1.014705882".
Proof.
  assert (H : expression (stateWith (js "69/68")) <> js "69/67") by discriminate.
  split; [exact H|]. split.
  - exact (proj1 (proj2 (proj2 (proj2 (checkSecretCode_exact examplePow)))
                    0 0 (stateWith (js "69/68")) H)).
  - vm_compute. reflexivity.
Defined.

Lemma precedence_left_to_right_example :
  wellFormed (js "2") [(Plus, js "3"); (Times, js "4")] = true
  /\ evaluateExpression examplePow (render (js "2") [(Plus, js "3"); (Times, js "4")])
     = display (precedenceValue (js "2") [(Plus, js "3"); (Times, js "4")]).
Proof.
  assert (H : wellFormed (js "2") [(Plus, js "3"); (Times, js "4")] = true)
    by reflexivity.
  split; [exact H|].
  exact (proj1 (precedence_left_to_right examplePow) _ _ H).
Defined.


Lemma error_keeps_buffer_and_ledger_example :
  evaluateExpression examplePow (expression (stateWith (js "5/0"))) = ERROR
  /\ expression (handleButtonPress examplePow 0 0 (js "=") (stateWith (js "5/0")))
     = js "5/0"
  /\ history (handleButtonPress examplePow 0 0 (js "=") (stateWith (js "5/0"))) = [].
Proof.
  assert (H : evaluateExpression examplePow (expression (stateWith (js "5/0"))) = ERROR)
    by (vm_compute; reflexivity).
  split; [exact H|].
  destruct (error_keeps_buffer_and_ledger examplePow 0 0 (stateWith (js "5/0")) H)
    as [H1 [H2 _]].
  split; [exact H1|exact H2].
Defined.

Lemma history_is_ten_most_recent_example :
  checkSecretCode (expression (stateWith (js "2+3"))) = false
  /\ jsstring_eqb (evaluateExpression examplePow (expression (stateWith (js "2+3")))) ERROR
     = false
  /\ history (handleButtonPress examplePow 7 8 (js "=") (stateWith (js "2+3")))
     = firstn 10 [mkItem (numberToString (num_ofZ 7)) (js "2+3")
                         (evaluateExpression examplePow (js "2+3")) 8].
Proof.
  assert (H1 : checkSecretCode (expression (stateWith (js "2+3"))) = false)
    by reflexivity.
  assert (H2 : jsstring_eqb
                 (evaluateExpression examplePow (expression (stateWith (js "2+3"))))
                 ERROR = false) by (vm_compute; reflexivity).
  split; [exact H1|]. split; [exact H2|].
  exact (proj1 (proj1 (proj2 (history_is_ten_most_recent examplePow))
                  7 8 (stateWith (js "2+3")) H1 H2)).
Defined.


Lemma equals_sets_flag_for_next_key_example :
  checkSecretCode (expression (stateWith (js "5/0"))) = false
  /\ justCalculated (handleButtonPress examplePow 0 0 (js "=") (stateWith (js "5/0"))) = true
  /\ expression
       (handleButtonPress examplePow 0 0 (js "+")
          (handleButtonPress examplePow 0 0 (js "=") (stateWith (js "5/0"))))
     = result (handleButtonPress examplePow 0 0 (js "=") (stateWith (js "5/0"))) ++ js "+".
Proof.
  assert (H : checkSecretCode (expression (stateWith (js "5/0"))) = false)
    by reflexivity.
  split; [exact H|].
  destruct (equals_sets_flag_for_next_key examplePow 0 0 (stateWith (js "5/0")) H)
    as [H1 [_ [_ [H4 _]]]].
  split; [exact H1|]. exact (H4 0 0 43%N eq_refl).
Defined.

Lemma updateNote_present_example :
  getNoteById (js "b") exampleNotes = Some (mkNote (js "b") (js "other") 2)
  /\ fst (updateNote 9 (js "b") (js "new") exampleNotes)
     = Some (mkNote (js "b") (js "new") 9)
  /\ map note_id (loadNotes (snd (updateNote 9 (js "b") (js "new") exampleNotes)))
     = [js "a"; js "b"].
Proof.
  assert (H : getNoteById (js "b") exampleNotes = Some (mkNote (js "b") (js "other") 2))
    by reflexivity.
  pose proof (updateNote_present 9 (js "b") (js "new") exampleNotes _ H) as P.
  cbv zeta in P. destruct P as (H1 & _ & _ & H4 & _).
  split; [exact H|]. split; [exact H1|exact H4].
Defined.

Lemma handleSave_new_stores_trimmed_example :
  forallb isSpace (js "  milk ") = false
  /\ loadNotes (snd (handleSave 5 (js "abc") 6 None (js "  milk ") exampleNotes))
     = mkNote (numberToString (num_ofZ 5) ++ js "abc") (trim (js "  milk ")) 6
       :: loadNotes exampleNotes
  /\ trim (js "  milk ") = js "milk".
Proof.
  assert (H : forallb isSpace (js "  milk ") = false) by reflexivity.
  split; [exact H|]. split; [|reflexivity].
  exact (proj1 (handleSave_new_stores_trimmed 5 (js "abc") 6 (js "  milk ")
                  exampleNotes H)).
Defined.

Lemma vault_notes_stay_tidy_example :
  forallb (fun n => tidy (note_content n)) (loadNotes exampleNotes) = true
  /\ forallb (fun n => tidy (note_content n))
       (loadNotes (vaultRun exampleNotes
          [SaveNew 1 (js "x") 2 (js " eggs "); SaveEdit 3 (js "b") (js " tea");
           SaveEdit 4 (js "a") (js "   "); Delete (js "a")])) = true
  /\ map note_content
       (loadNotes (vaultRun exampleNotes
          [SaveNew 1 (js "x") 2 (js " eggs "); SaveEdit 3 (js "b") (js " tea");
           SaveEdit 4 (js "a") (js "   "); Delete (js "a")]))
     = [js "eggs"; js "tea"].
Proof.
  assert (H : forallb (fun n => tidy (note_content n)) (loadNotes exampleNotes) = true)
    by reflexivity.
  split; [exact H|]. split; [|vm_compute; reflexivity].
  exact (vault_notes_stay_tidy _ exampleNotes H).
Defined.

Lemma handleSave_edit_of_missing_note_example :
  isEditMode (Some (js "zz")) = true
  /\ forallb isSpace (js "text") = false
  /\ getNoteById (js "zz") exampleNotes = None
  /\ handleSave 1 [] 2 (Some (js "zz")) (js "text") exampleNotes
     = (WentBack, exampleNotes).
Proof.
  assert (H1 : isEditMode (Some (js "zz")) = true) by reflexivity.
  assert (H2 : forallb isSpace (js "text") = false) by reflexivity.
  assert (H3 : getNoteById (js "zz") exampleNotes = None) by reflexivity.
  split; [exact H1|]. split; [exact H2|]. split; [exact H3|].
  exact (handleSave_edit_of_missing_note 1 [] 2 (js "zz") (js "text") exampleNotes
           H1 H2 H3).
Defined.


Lemma ledger_holds_only_evaluations_example :
  forallb (honestItem examplePow) (history initial) = true
  /\ forallb (honestItem examplePow) (loadHistory (storage initial)) = true
  /\ forallb (honestItem examplePow)
       (history (run examplePow initial
          (keysOf ["2"; "+"; "3"; "="; "5"; "/"; "0"; "=";
                   "6"; "9"; "/"; "6"; "7"; "="]%string))) = true
  /\ map item_expression
       (history (run examplePow initial
          (keysOf ["2"; "+"; "3"; "="; "5"; "/"; "0"; "=";
                   "6"; "9"; "/"; "6"; "7"; "="]%string)))
     = [js "2+3"].
Proof.
  assert (H1 : forallb (honestItem examplePow) (history initial) = true)
    by reflexivity.
  assert (H2 : forallb (honestItem examplePow) (loadHistory (storage initial)) = true)
    by reflexivity.
  split; [exact H1|]. split; [exact H2|]. split; [|vm_compute; reflexivity].
  exact (proj1 (ledger_holds_only_evaluations examplePow _ initial H1 H2)).
Defined.

Lemma vault_only_by_secret_code_example :
  route initial = Calculator
  /\ route (run examplePow initial (keysOf ["6"; "9"; "/"; "6"; "7"; "="]%string))
     = Notes
  /\ exists e1 now1 now2 e2,
       keysOf ["6"; "9"; "/"; "6"; "7"; "="]%string
       = e1 ++ Press now1 now2 (js "=") :: e2
       /\ expression (run examplePow initial e1) = SECRET_CODE.
Proof.
  assert (H1 : route initial = Calculator) by reflexivity.
  assert (H2 : route (run examplePow initial
                        (keysOf ["6"; "9"; "/"; "6"; "7"; "="]%string)) = Notes)
    by (vm_compute; reflexivity).
  split; [exact H1|]. split; [exact H2|].
  exact (vault_only_by_secret_code examplePow _ initial H1 H2).
Defined.

Lemma operator_key_replaces_operator_example :
  isOperator 43 = true
  /\ isOperator 42 = true
  /\ step examplePow (step examplePow (stateWith (js "5")) (Press 0 0 [43%N]))
          (Press 0 0 [42%N])
     = step examplePow (stateWith (js "5")) (Press 0 0 [42%N])
  /\ expression (step examplePow (stateWith (js "5")) (Press 0 0 [42%N])) = js "5*".
Proof.
  assert (H1 : isOperator 43 = true) by reflexivity.
  assert (H2 : isOperator 42 = true) by reflexivity.
  split; [exact H1|]. split; [exact H2|]. split; [|reflexivity].
  exact (operator_key_replaces_operator examplePow (stateWith (js "5")) 0 0 0 0
           43%N 42%N H1 H2).
Defined.

Lemma del_clears_to_zero_example :
  forallb isDel (keysOf ["DEL"; "DEL"; "DEL"; "DEL"]%string) = true
  /\ (1 <= List.length (keysOf ["DEL"; "DEL"; "DEL"; "DEL"]%string))%nat
  /\ (List.length (expression (stateWith (js "12+3")))
      <= List.length (keysOf ["DEL"; "DEL"; "DEL"; "DEL"]%string))%nat
  /\ run examplePow (stateWith (js "12+3")) (keysOf ["DEL"; "DEL"; "DEL"; "DEL"]%string)
     = withExpression (stateWith (js "12+3")) (js "0").
Proof.
  assert (H1 : forallb isDel (keysOf ["DEL"; "DEL"; "DEL"; "DEL"]%string) = true)
    by reflexivity.
  assert (H2 : (1 <= List.length (keysOf ["DEL"; "DEL"; "DEL"; "DEL"]%string))%nat)
    by (simpl; lia).
  assert (H3 : (List.length (expression (stateWith (js "12+3")))
                <= List.length (keysOf ["DEL"; "DEL"; "DEL"; "DEL"]%string))%nat)
    by (simpl; lia).
  split; [exact H1|]. split; [exact H2|]. split; [exact H3|].
  exact (del_clears_to_zero examplePow _ (stateWith (js "12+3")) H1 H2 H3).
Defined.

Lemma del_takes_back_a_key_example :
  justCalculated (stateWith (js "12")) = false
  /\ nonEmpty (expression (stateWith (js "12"))) = true
  /\ isDigit 53 = true
  /\ step examplePow (step examplePow (stateWith (js "12")) (Press 0 0 [53%N]))
          (Press 0 0 (js "DEL"))
     = stateWith (js "12").
Proof.
  assert (H1 : justCalculated (stateWith (js "12")) = false) by reflexivity.
  assert (H2 : nonEmpty (expression (stateWith (js "12"))) = true) by reflexivity.
  assert (H3 : isDigit 53 = true) by reflexivity.
  split; [exact H1|]. split; [exact H2|]. split; [exact H3|].
  exact (del_takes_back_a_key examplePow (stateWith (js "12")) 0 0 0 0 53%N
           H1 H2 (or_introl H3)).
Defined.

Lemma equals_again_logs_again_example :
  checkSecretCode (expression (stateWith (js "2+3"))) = false
  /\ expression (step examplePow
                   (step examplePow (stateWith (js "2+3")) (Press 1 2 (js "=")))
                   (Press 3 4 (js "=")))
     = js "2+3"
  /\ map item_result
       (history (step examplePow
                   (step examplePow (stateWith (js "2+3")) (Press 1 2 (js "=")))
                   (Press 3 4 (js "="))))
     = [js "5"; js "5"].
Proof.
  assert (H : checkSecretCode (expression (stateWith (js "2+3"))) = false)
    by reflexivity.
  pose proof (equals_again_logs_again examplePow (stateWith (js "2+3")) 1 2 3 4 H) as P.
  cbv zeta in P. destruct P as (P1 & _).
  split; [exact H|]. split; [exact P1|]. vm_compute. reflexivity.
Defined.

Lemma one_decimal_point_per_operand_example :
  forallb isButton (keysOf ["1"; "."; "5"; "."; "+"; "."; "2"; "."]%string) = true
  /\ oneDotPerOperand (expression initial) = true
  /\ (dots (result initial) <= 1)%nat
  /\ oneDotPerOperand
       (expression (run examplePow initial
          (keysOf ["1"; "."; "5"; "."; "+"; "."; "2"; "."]%string))) = true
  /\ expression (run examplePow initial
       (keysOf ["1"; "."; "5"; "."; "+"; "."; "2"; "."]%string)) = js "1.5+.2".
Proof.
  assert (H1 : forallb isButton
                 (keysOf ["1"; "."; "5"; "."; "+"; "."; "2"; "."]%string) = true)
    by reflexivity.
  assert (H2 : oneDotPerOperand (expression initial) = true) by reflexivity.
  assert (H3 : (dots (result initial) <= 1)%nat) by (unfold dots; simpl; lia).
  split; [exact H1|]. split; [exact H2|]. split; [exact H3|].
  split; [|vm_compute; reflexivity].
  exact (proj1 (one_decimal_point_per_operand examplePow _ initial H1 H2 H3)).
Defined.

Lemma unfinished_expression_is_error_example :
  wellFormed (js "5") [(Plus, js "3")] = true
  /\ evaluateExpression examplePow (render (js "5") [(Plus, js "3")] ++ [arithChar Times])
     = ERROR
  /\ render (js "5") [(Plus, js "3")] ++ [arithChar Times] = js "5+3*".
Proof.
  assert (H : wellFormed (js "5") [(Plus, js "3")] = true) by reflexivity.
  split; [exact H|]. split; [|reflexivity].
  exact (unfinished_expression_is_error examplePow (js "5") [(Plus, js "3")] Times H).
Defined.

Lemma division_by_zero_is_error_example :
  wellFormed (js "1") [(Plus, js "5"); (Divide, js "0"); (Times, js "2")] = true
  /\ dividesByZero [(Plus, js "5"); (Divide, js "0"); (Times, js "2")] = true
  /\ evaluateExpression examplePow
       (render (js "1") [(Plus, js "5"); (Divide, js "0"); (Times, js "2")])
     = ERROR
  /\ render (js "1") [(Plus, js "5"); (Divide, js "0"); (Times, js "2")]
     = js "1+5/0*2".
Proof.
  assert (H1 : wellFormed (js "1") [(Plus, js "5"); (Divide, js "0"); (Times, js "2")]
               = true) by reflexivity.
  assert (H2 : dividesByZero [(Plus, js "5"); (Divide, js "0"); (Times, js "2")] = true)
    by reflexivity.
  split; [exact H1|]. split; [exact H2|]. split; [|reflexivity].
  exact (division_by_zero_is_error examplePow _ _ H1 H2).
Defined.



